(** * Markdown preview and export: the HTML assembly pipeline

    A shallow embedding of [src/helpers.ts] ([getHtmlForWebview] and the
    code-block renderer it installs) together with the properties of the
    rendering pipeline stated in the specification.

    JavaScript strings are modelled as [string] (the UTF-8 bytes of the text).
    Every character the code inspects (the slash of the asset base, the
    keyword [mermaid]) is ASCII, so byte-wise and code-unit-wise comparison
    agree.  The third-party libraries the function calls ([highlight.js],
    [marked], [DOMPurify], [twemoji]) are not part of the repository: they
    enter as interfaces, and whatever a statement needs from them is a
    hypothesis of that statement.  The emoji postprocessor is, in addition,
    modelled from its description in the specification. *)

From Stdlib Require Import String Ascii List Bool Arith ZArith Lia.
Import ListNotations.

Open Scope list_scope.
Open Scope string_scope.

(** ** Strings *)

(** The double-quote character. *)
Definition dq : string := String (ascii_of_nat 34) EmptyString.

(** The line feed. *)
Definition nl : string := String (ascii_of_nat 10) EmptyString.

(** [n] spaces of indentation. *)
Fixpoint spaces (n : nat) : string :=
  match n with
  | O => EmptyString
  | S n' => String " " (spaces n')
  end.

(** The texts of a list, one after the other. *)
Definition join (l : list string) : string := fold_right append EmptyString l.

(** [String.prototype.startsWith]. *)
Fixpoint startsWith (s p : string) : bool :=
  match p, s with
  | EmptyString, _ => true
  | String _ _, EmptyString => false
  | String a p', String b s' => Ascii.eqb a b && startsWith s' p'
  end.

(** [String.prototype.includes]: [p] occurs in [s] as a contiguous run. *)
Fixpoint includes (s p : string) : bool :=
  startsWith s p ||
  match s with
  | EmptyString => false
  | String _ s' => includes s' p
  end.


(** Truthiness of a JavaScript string: every string but the empty one. *)
Definition truthy (s : string) : bool :=
  match s with
  | EmptyString => false
  | String _ _ => true
  end.

(** Truthiness of [string | undefined]. *)
Definition truthy_opt (o : option string) : bool :=
  match o with
  | Some s => truthy s
  | None => false
  end.

(** [s.replace(/\/$/, '')]: the pattern matches one slash standing at the
    very end of the string (no [g], no [m] flag), so at most one character
    is removed. *)
Fixpoint strip_trailing_slash (s : string) : string :=
  match s with
  | EmptyString => EmptyString
  | String c EmptyString => if Ascii.eqb c "/" then EmptyString else s
  | String c s' => String c (strip_trailing_slash s')
  end.

(** ** Completions and the effect monad *)

(** A JavaScript completion: a value, or a thrown error.  A thrown value is
    recorded by its string rendering, which is all the code does with it
    (it is interpolated into a log line). *)
Inductive completion (A : Type) : Type :=
| Normal (a : A)
| Abrupt (error : string).
Arguments Normal {A} a.
Arguments Abrupt {A} error.

(** Computations over a store [S] that may throw. *)
Definition Js (S A : Type) : Type := S -> completion A * S.

Definition ret {S A} (a : A) : Js S A := fun s => (Normal a, s).

Definition bind {S A B} (m : Js S A) (k : A -> Js S B) : Js S B :=
  fun s =>
    match m s with
    | (Normal a, s') => k a s'
    | (Abrupt e, s') => (Abrupt e, s')
    end.

(** [try { body } catch (error) { handler }]. *)
Definition try_catch {S A} (body : Js S A) (handler : string -> Js S A) : Js S A :=
  fun s =>
    match body s with
    | (Normal a, s') => (Normal a, s')
    | (Abrupt e, s') => handler e s'
    end.

(** A call into a library function that touches no store of ours. *)
Definition call {S A} (c : completion A) : Js S A := fun s => (c, s).

Declare Scope js_scope.
Delimit Scope js_scope with js.
Notation "x <- m ;; k" := (bind m (fun x => k))
  (at level 61, m at next level, right associativity) : js_scope.
Notation "m ;; k" := (bind m (fun _ => k))
  (at level 61, right associativity) : js_scope.

(** The console: the lines written with [console.error], oldest first. *)
Definition Console : Type := list string.

Definition console_error (msg : string) : Js Console unit :=
  fun c => (Normal tt, (c ++ [msg])%list).

(** ** The syntax highlighter (highlight.js) *)

(** What the renderer uses of [hljs]: [getLanguage(name)] taken as a truth
    value (a language object or [undefined]) and
    [highlight(code, { language }).value], which may throw. *)
Record Hljs : Type := {
  getLanguage : string -> bool;
  highlight : string -> string -> completion string
}.

(** ** The code-block renderer ([renderer.code], helpers.ts 59-107) *)

(** helpers.ts 64-66: the diagram container up to the interpolated code. *)
Definition mermaid_q0 : string :=
  String.concat nl
    [ EmptyString
    ; "                <div class=" ++ dq ++ "mermaid-container" ++ dq ++ ">"
    ; "                    <pre class=" ++ dq ++ "mermaid" ++ dq ++ ">" ].

(** helpers.ts 66-68: the diagram container after the interpolated code. *)
Definition mermaid_q1 : string :=
  String.concat nl
    [ "</pre>"
    ; "                </div>"
    ; "            " ].

(** helpers.ts 76-79: highlighted block, up to the language label. *)
Definition highlighted_q0 : string :=
  String.concat nl
    [ EmptyString
    ; "                <div class=" ++ dq ++ "code-block" ++ dq ++ ">"
    ; "                    <div class=" ++ dq ++ "code-header" ++ dq ++ ">"
    ; "                        <span class=" ++ dq ++ "language" ++ dq ++ ">" ].

(** helpers.ts 79-87: highlighted block, from the label to the class of the code element. *)
Definition highlighted_q1 : string :=
  String.concat nl
    [ "</span>"
    ; "                        <button class=" ++ dq ++ "copy-button" ++ dq ++ " onclick=" ++ dq ++ "copyToClipboard(this)" ++ dq ++ " title=" ++ dq ++ "Copy to clipboard" ++ dq ++ ">"
    ; "                            <svg width=" ++ dq ++ "16" ++ dq ++ " height=" ++ dq ++ "16" ++ dq ++ " viewBox=" ++ dq ++ "0 0 24 24" ++ dq ++ " fill=" ++ dq ++ "none" ++ dq ++ " stroke=" ++ dq ++ "currentColor" ++ dq ++ " stroke-width=" ++ dq ++ "2" ++ dq ++ ">"
    ; "                                <rect x=" ++ dq ++ "9" ++ dq ++ " y=" ++ dq ++ "9" ++ dq ++ " width=" ++ dq ++ "13" ++ dq ++ " height=" ++ dq ++ "13" ++ dq ++ " rx=" ++ dq ++ "2" ++ dq ++ " ry=" ++ dq ++ "2" ++ dq ++ "></rect>"
    ; "                                <path d=" ++ dq ++ "M5 15H4a2 2 0 0 1-2-2V4a2 2 0 0 1 2-2h9a2 2 0 0 1 2 2v1" ++ dq ++ "></path>"
    ; "                            </svg>"
    ; "                        </button>"
    ; "                    </div>"
    ; "                    <pre><code class=" ++ dq ++ "hljs language-" ].

(** helpers.ts 87: between the resolved language and the highlighted code. *)
Definition highlighted_q2 : string :=
  dq ++ ">".

(** helpers.ts 87-89: highlighted block, closing part. *)
Definition highlighted_q3 : string :=
  String.concat nl
    [ "</code></pre>"
    ; "                </div>"
    ; "            " ].

(** helpers.ts 92-95: fallback block, up to the language label. *)
Definition fallback_q0 : string :=
  String.concat nl
    [ EmptyString
    ; "                <div class=" ++ dq ++ "code-block" ++ dq ++ ">"
    ; "                    <div class=" ++ dq ++ "code-header" ++ dq ++ ">"
    ; "                        <span class=" ++ dq ++ "language" ++ dq ++ ">" ].

(** helpers.ts 95-103: fallback block, from the label to the code element. *)
Definition fallback_q1 : string :=
  String.concat nl
    [ "</span>"
    ; "                        <button class=" ++ dq ++ "copy-button" ++ dq ++ " onclick=" ++ dq ++ "copyToClipboard(this)" ++ dq ++ " title=" ++ dq ++ "Copy to clipboard" ++ dq ++ ">"
    ; "                            <svg width=" ++ dq ++ "16" ++ dq ++ " height=" ++ dq ++ "16" ++ dq ++ " viewBox=" ++ dq ++ "0 0 24 24" ++ dq ++ " fill=" ++ dq ++ "none" ++ dq ++ " stroke=" ++ dq ++ "currentColor" ++ dq ++ " stroke-width=" ++ dq ++ "2" ++ dq ++ ">"
    ; "                                <rect x=" ++ dq ++ "9" ++ dq ++ " y=" ++ dq ++ "9" ++ dq ++ " width=" ++ dq ++ "13" ++ dq ++ " height=" ++ dq ++ "13" ++ dq ++ " rx=" ++ dq ++ "2" ++ dq ++ " ry=" ++ dq ++ "2" ++ dq ++ "></rect>"
    ; "                                <path d=" ++ dq ++ "M5 15H4a2 2 0 0 1-2-2V4a2 2 0 0 1 2-2h9a2 2 0 0 1 2 2v1" ++ dq ++ "></path>"
    ; "                            </svg>"
    ; "                        </button>"
    ; "                    </div>"
    ; "                    <pre><code>" ].

(** helpers.ts 103-105: fallback block, closing part. *)
Definition fallback_q2 : string :=
  String.concat nl
    [ "</code></pre>"
    ; "                </div>"
    ; "            " ].

(** The template literal of helpers.ts 64-68. *)
Definition mermaid_block (code : string) : string :=
  mermaid_q0 ++ code ++ mermaid_q1.

(** The template literal of helpers.ts 76-89. *)
Definition highlighted_block (lang validLanguage highlightedCode : string) : string :=
  highlighted_q0 ++ lang ++ highlighted_q1 ++ validLanguage ++ highlighted_q2
    ++ highlightedCode ++ highlighted_q3.

(** The template literal of helpers.ts 92-105. *)
Definition fallback_block (lang code : string) : string :=
  fallback_q0 ++ lang ++ fallback_q1 ++ code ++ fallback_q2.

(** [language || 'plaintext'] (helpers.ts 60). *)
Definition resolve_lang (language : option string) : string :=
  match language with
  | Some l => if truthy l then l else "plaintext"
  | None => "plaintext"
  end.

(** [hljs.getLanguage(lang) ? lang : 'plaintext'] (helpers.ts 73). *)
Definition validLanguage (hljs : Hljs) (lang : string) : string :=
  if getLanguage hljs lang then lang else "plaintext".

(** [renderer.code = (code, language) => ...] (helpers.ts 59-107). *)
Definition renderer_code (hljs : Hljs) (code : string) (language : option string)
  : Js Console string :=
  let lang := resolve_lang language in
  if (lang =? "mermaid")%string then
    ret (mermaid_block code)
  else
    try_catch
      (let validLanguage := validLanguage hljs lang in
       highlightedCode <- call (highlight hljs code validLanguage) ;;
       ret (highlighted_block lang validLanguage highlightedCode))%js
      (fun error =>
         console_error ("Error highlighting code: " ++ error) ;;
         ret (fallback_block lang code))%js.

(** ** The Markdown engine (marked) *)

(** [new marked.Renderer()] with its [code] method, the only one the
    function overrides. *)
Record Renderer : Type := {
  render_code : string -> option string -> Js Console string
}.

(** [ExtendedMarkedOptions] (helpers.ts 45-53), with the fields the function
    sets (helpers.ts 109-121). *)
Record ExtendedMarkedOptions : Type := {
  renderer : Renderer;
  opt_highlight : string -> string -> completion string;
  langPrefix : string;
  gfm : bool;
  breaks : bool;
  smartLists : bool;
  smartypants : bool;
  xhtml : bool
}.

(** An extension object handed to [marked.use]. *)
Inductive MarkedExtension : Type :=
| KatexExtension.

(** [markedKatex()] (marked-katex-extension). *)
Definition markedKatex : MarkedExtension := KatexExtension.

(** The imported [marked] object is one per process: [marked.use] and
    [marked.setOptions] write to it.  [extensions] are the registrations made
    so far, oldest first; [defaults] is [None] until [setOptions] is called
    (the function sets every field of the record at once). *)
Record MarkedInstance : Type := {
  extensions : list MarkedExtension;
  defaults : option ExtendedMarkedOptions
}.

(** What outlives a call of [getHtmlForWebview]: the [marked] object and the
    console. *)
Record World : Type := {
  marked : MarkedInstance;
  console : Console
}.

(** [marked.use(ext)]. *)
Definition marked_use (ext : MarkedExtension) : Js World unit :=
  fun w =>
    (Normal tt,
     {| marked := {| extensions := (extensions (marked w) ++ [ext])%list;
                     defaults := defaults (marked w) |};
        console := console w |}).

(** [marked.setOptions(options)]. *)
Definition marked_setOptions (options : ExtendedMarkedOptions) : Js World unit :=
  fun w =>
    (Normal tt,
     {| marked := {| extensions := extensions (marked w);
                     defaults := Some options |};
        console := console w |}).

(** ** The sanitizer (DOMPurify) *)

Record Profiles : Type := {
  html : bool
}.

(** The configuration object of [DOMPurify.sanitize]. *)
Record SanitizeConfig : Type := {
  USE_PROFILES : Profiles;
  ADD_TAGS : list string;
  ADD_ATTR : list string
}.

(** [DOMPurify]: the sanitizing function, and the tag and attribute names its
    built-in profiles let through. *)
Record DOMPurify : Type := {
  sanitize : SanitizeConfig -> string -> string;
  profile_tag : Profiles -> string -> bool;
  profile_attr : Profiles -> string -> bool
}.

(** ASCII lower-casing; DOMPurify compares names of an HTML document in lower
    case. *)
Definition lower_ascii (c : ascii) : ascii :=
  let n := nat_of_ascii c in
  if ((65 <=? n) && (n <=? 90))%nat then ascii_of_nat (n + 32) else c.

Fixpoint lower (s : string) : string :=
  match s with
  | EmptyString => EmptyString
  | String c s' => String (lower_ascii c) (lower s')
  end.

Definition name_in (name : string) (names : list string) : bool :=
  existsb (fun n => (lower n =? lower name)%string) names.


(** An attribute passes when the selected profile has it or [ADD_ATTR] names
    it. *)
Definition attr_allowed (P : DOMPurify) (cfg : SanitizeConfig) (attr : string) : bool :=
  profile_attr P (USE_PROFILES cfg) attr || name_in attr (ADD_ATTR cfg).

(** The configuration of helpers.ts 129-142. *)
Definition sanitize_config : SanitizeConfig :=
  {| USE_PROFILES := {| html := true |};
     ADD_TAGS :=
       [ "math"; "semantics"; "mrow"; "mi"; "mo"; "mn"; "msup"; "sub"; "sup"; "annotation";
         "svg"; "path"; "rect"; "g"; "text"; "tspan"; "defs"; "marker"; "line";
         "polyline"; "polygon"; "circle"; "ellipse"; "foreignObject" ];
     ADD_ATTR :=
       [ "xmlns"; "viewBox"; "fill"; "stroke"; "stroke-width"; "d"; "x"; "y";
         "width"; "height"; "rx"; "ry"; "id"; "class"; "transform"; "cx"; "cy";
         "r"; "x1"; "y1"; "x2"; "y2"; "points"; "font-family"; "font-size";
         "text-anchor"; "dominant-baseline"; "style"; "marker-start"; "marker-end" ] |}.

(** ** The emoji postprocessor (twemoji) *)

Record TwemojiOptions : Type := {
  folder : string;
  ext : string;
  base : string
}.

(** [twemoji.parse(text, options)] on a string, and [twemoji.test(text)],
    which tells whether a text contains an emoji glyph. *)
Record Twemoji : Type := {
  twemoji_parse : TwemojiOptions -> string -> string;
  twemoji_test : string -> bool
}.

(** The options of helpers.ts 145-149. *)
Definition twemoji_options : TwemojiOptions :=
  {| folder := "svg";
     ext := ".svg";
     base := "https://cdnjs.cloudflare.com/ajax/libs/twemoji/14.0.2/" |}.

(** ** The emoji postprocessor of the specification *)

(** Modelled from the spec: the versioned image set of section 4.4, as the
    glyphs it has an image for, each with the name of its image. *)
Definition EmojiSet : Type := list (string * string).

(** Modelled from the spec: the glyph of the image set that stands at the
    head of a text, if one does (section 4.4, the postprocessor scans the
    text for emoji code points); the first entry of the set that matches
    wins. *)
Definition glyph_at (set : EmojiSet) (s : string) : option (string * string) :=
  find (fun e => truthy (fst e) && startsWith s (fst e)) set.

(** Modelled from the spec: the image reference that stands for a glyph
    (section 4.4, an image reference pointing at the image set, built from
    the base locator, the folder and the file extension), written as
    [twemoji] writes an image, with the glyph as the alternative text. *)
Definition image_reference (o : TwemojiOptions) (glyph icon : string) : string :=
  "<img class=" ++ dq ++ "emoji" ++ dq ++ " draggable=" ++ dq ++ "false" ++ dq
    ++ " alt=" ++ dq ++ glyph ++ dq
    ++ " src=" ++ dq ++ base o ++ folder o ++ "/" ++ icon ++ ext o ++ dq ++ "/>".

(** Modelled from the spec: what the scan of section 4.4 makes of a text,
    characters it keeps and glyphs it replaces. *)
Inductive Piece : Type :=
| Kept (c : ascii)
| Replaced (glyph icon : string).

(** Modelled from the spec: the scan of section 4.4, from left to right;
    [skip] counts the characters of a glyph still to be passed over. *)
Fixpoint scan (set : EmojiSet) (skip : nat) (s : string) : list Piece :=
  match s with
  | EmptyString => []
  | String c s' =>
      match skip with
      | S k => scan set k s'
      | O =>
          match glyph_at set s with
          | Some (glyph, icon) =>
              Replaced glyph icon :: scan set (String.length glyph - 1) s'
          | None => Kept c :: scan set 0 s'
          end
      end
  end.

(** Modelled from the spec: the text a piece was read from. *)
Definition piece_source (p : Piece) : string :=
  match p with
  | Kept c => String c EmptyString
  | Replaced glyph _ => glyph
  end.

(** Modelled from the spec: the text a piece is written as, the image
    reference for a glyph. *)
Definition piece_image (o : TwemojiOptions) (p : Piece) : string :=
  match p with
  | Kept c => String c EmptyString
  | Replaced glyph icon => image_reference o glyph icon
  end.

(** Modelled from the spec: the text a scan was made of. *)
Definition scanned_text (pieces : list Piece) : string :=
  join (map piece_source pieces).

(** Modelled from the spec: the text a scan is written as. *)
Definition replaced_text (o : TwemojiOptions) (pieces : list Piece) : string :=
  join (map (piece_image o) pieces).

(** Modelled from the spec: the Emoji Postprocessor of section 4.4 over an
    image set, in the shape of the [twemoji] interface. *)
Definition postprocessor (set : EmojiSet) : Twemoji :=
  {| twemoji_parse := fun o s => replaced_text o (scan set 0 s);
     twemoji_test := fun s =>
       existsb (fun e => truthy (fst e) && includes s (fst e)) set |}.

(** ** The document template (helpers.ts 154-329) *)

(** helpers.ts 154-160: document prologue up to the first stylesheet locator. *)
Definition doc_q0 : string :=
  String.concat nl
    [ "<! DOCTYPE html>"
    ; "<html lang=" ++ dq ++ "en" ++ dq ++ ">"
    ; "<head>"
    ; "    <meta charset=" ++ dq ++ "UTF-8" ++ dq ++ ">"
    ; "    <meta name=" ++ dq ++ "viewport" ++ dq ++ " content=" ++ dq ++ "width=device-width, initial-scale=1.0" ++ dq ++ ">"
    ; "    <title>Markdown:  Rich Preview</title>"
    ; "    <link rel=" ++ dq ++ "stylesheet" ++ dq ++ " href=" ++ dq ].

(** helpers.ts 160-161: between the two stylesheet locators. *)
Definition doc_q1 : string :=
  String.concat nl
    [ dq ++ ">"
    ; "    <link rel=" ++ dq ++ "stylesheet" ++ dq ++ " href=" ++ dq ].

(** helpers.ts 161-163: from the math stylesheet locator to the diagram bootstrap script. *)
Definition doc_q2a : string :=
  String.concat nl
    [ dq ++ ">"
    ; "    "
    ; "    <!-- اضافه کردن Mermaid -->"
    ; "    " ].

(** helpers.ts 164-187: the module script that initialises the diagram runtime and signals completion. *)
Definition mermaid_bootstrap_script : string :=
  String.concat nl
    [ "<script type=" ++ dq ++ "module" ++ dq ++ ">"
    ; "        import mermaid from 'https://cdn.jsdelivr.net/npm/mermaid@10/dist/mermaid.esm.min.mjs';"
    ; "        "
    ; "        mermaid.initialize({ "
    ; "            startOnLoad: true,"
    ; "            theme: 'default',"
    ; "            securityLevel: 'loose',"
    ; "            fontFamily: '-apple-system, BlinkMacSystemFont, " ++ dq ++ "Segoe UI" ++ dq ++ ", Roboto, sans-serif'"
    ; "        });"
    ; "        "
    ; "        // برای PDF export، صبر کنید تا همه نمودارها رندر شوند"
    ; "        window.addEventListener('load', async () => {"
    ; "            try {"
    ; "                await mermaid.run({"
    ; "                    querySelector: '.mermaid'"
    ; "                });"
    ; "                // سیگنال به Puppeteer که رندر تمام شده"
    ; "                window.mermaidReady = true;"
    ; "            } catch (error) {"
    ; "                console.error('Mermaid rendering error:', error);"
    ; "                window.mermaidReady = true;"
    ; "            }"
    ; "        });"
    ; "    </script>" ].

(** helpers.ts 187-189: from the bootstrap script to the highlighter runtime locator. *)
Definition doc_q2b : string :=
  String.concat nl
    [ EmptyString
    ; "    "
    ; "    <script src=" ++ dq ].

(** helpers.ts 189-220: highlighting bootstrap, clipboard helper, opening of the first style element. *)
Definition doc_q3 : string :=
  String.concat nl
    [ dq ++ "></script>"
    ; "    <script>"
    ; "        // Initialize highlight.js"
    ; "        document.addEventListener('DOMContentLoaded', () => {"
    ; "            document.querySelectorAll('pre code').forEach((block) => {"
    ; "                if (typeof hljs !== 'undefined' && hljs.highlightElement) {"
    ; "                    hljs. highlightElement(block);"
    ; "                }"
    ; "            });"
    ; "        });"
    ; EmptyString
    ; "        // Copy to clipboard function"
    ; "        function copyToClipboard(button) {"
    ; "            const codeBlock = button.closest('.code-block');"
    ; "            const code = codeBlock.querySelector('code').textContent;"
    ; "            navigator.clipboard.writeText(code).then(() => {"
    ; "                const originalText = button.textContent;"
    ; "                button.textContent = 'Copied!';"
    ; "                button.style.backgroundColor = '#4CAF50';"
    ; "                button.style.color = 'white';"
    ; "                setTimeout(() => {"
    ; "                    button.textContent = originalText;"
    ; "                    button.style.backgroundColor = '';"
    ; "                    button.style.color = '';"
    ; "                }, 2000);"
    ; "            }).catch(err => {"
    ; "                console.error('Failed to copy:  ', err);"
    ; "            });"
    ; "        }"
    ; "    </script>"
    ; "    <style>"
    ; "        " ].

(** helpers.ts 220-232: the print-media rules, emitted only when assembling for PDF. *)
Definition print_media_block : string :=
  String.concat nl
    [ EmptyString
    ; "        @media print {"
    ; "            h1, h2, h3 {"
    ; "                page-break-before: auto;"
    ; "            }"
    ; "            pre, . code-block, figure, table, . mermaid-container {"
    ; "                page-break-inside: avoid;"
    ; "            }"
    ; "            hr {"
    ; "                page-break-after: auto;"
    ; "            }"
    ; "        }"
    ; "        " ].

(** helpers.ts 232-327: base theme and opening of the body. *)
Definition doc_q4 : string :=
  String.concat nl
    [ EmptyString
    ; "       </style>"
    ; "    <style>"
    ; "        /* تنظیمات کلی صفحه */"
    ; "        body {"
    ; "            font-family: system-ui, -apple-system, sans-serif;"
    ; "            line-height: 1.6;"
    ; "            margin: 5%;"
    ; "            max-width: max-content;"
    ; "            padding: 10px;"
    ; "            background-color: #ffffff;"
    ; "            color: #24292e;"
    ; "            direction: rtl;"
    ; "            text-align: right;"
    ; "        }"
    ; EmptyString
    ; "        h1, h2, h3 {"
    ; "            border-bottom: 1px solid #eaecef;"
    ; "            padding-bottom: 0.3em;"
    ; "            margin-top: 2em;"
    ; "            margin-bottom: 1em;"
    ; "        }"
    ; EmptyString
    ; "        /* استایل بلوک کد */"
    ; "        .code-block {"
    ; "            position: relative;"
    ; "            margin: 1.5em 0;"
    ; "            border: 1px solid #e1e4e8;"
    ; "            border-radius: 6px;"
    ; "            overflow: hidden;"
    ; "            background-color: #f6f8fa;"
    ; "        }"
    ; EmptyString
    ; "        .code-header {"
    ; "            display: flex;"
    ; "            direction: ltr;"
    ; "            justify-content: space-between;"
    ; "            align-items: center;"
    ; "            padding: 0.6rem 1rem;"
    ; "            background-color: #f1f3f5;"
    ; "            border-bottom: 1px solid #e1e4e8;"
    ; "            font-size: 0.9em;"
    ; "        }"
    ; EmptyString
    ; "        .language {"
    ; "            color: #586069;"
    ; "            font-weight: 500;"
    ; "        }"
    ; EmptyString
    ; "        .copy-button {"
    ; "            padding: 0.3rem 0.7rem;"
    ; "            font-size: 0.85em;"
    ; "            color: #24292e;"
    ; "            background: transparent;"
    ; "            border: 1px solid #d1d5da;"
    ; "            border-radius: 4px;"
    ; "            cursor: pointer;"
    ; "            transition: all 0.2s;"
    ; "        }"
    ; EmptyString
    ; "        .copy-button:hover {"
    ; "            background-color: #e9ecef;"
    ; "            border-color: #c1c4c8;"
    ; "        }"
    ; EmptyString
    ; "        pre {"
    ; "            margin: 0;"
    ; "            padding: 1rem;"
    ; "            overflow-x: auto;"
    ; "            direction: ltr;"
    ; "            text-align: left;"
    ; "        }"
    ; EmptyString
    ; "        pre code {"
    ; "            font-family: SFMono-Regular, Consolas, 'Liberation Mono', Menlo, monospace;"
    ; "            font-size: 0.95em;"
    ; "        }"
    ; EmptyString
    ; "        /* اطمینان از خوانایی در RTL */"
    ; "        code {"
    ; "            direction: ltr;"
    ; "            display: block;"
    ; "        }"
    ; "        img { display: block; max-width: fit-content; height: auto; margin-left: auto; margin-right: auto;"
    ; "        max-width: 100%; box-sizing: content-box; }"
    ; "        img.emoji { height: 1em; width: 1em; margin: 0 .05em 0 .1em; vertical-align: -0.1em; display: inline; }"
    ; "         h1, h2, h3, h4, h5, h6 { font-weight: 600; margin-top: 24px; margin-bottom: 16px; line-height: 1.25; } "
    ; "         h1 { font-size: 2em; border-bottom: 1px solid #eaecef; padding-bottom: 0.3em; margin-top: 0.67em 0; }"
    ; "          h2 { font-size: 1.5em; border-bottom: 1px solid #eaecef; padding-bottom: 0.3em; margin-top: 1.5em; }"
    ; "           h3 { font-size: 1.25em; margin-top: 1.25em; } h4 { font-size: 1em; margin-top: 1em; }"
    ; "            a { color: #0366d6; text-decoration: none; } a:hover { text-decoration: underline; }"
    ; "             strong { font-weight: 600; }"
    ; "    </style> "
    ; "</head>"
    ; "<body>"
    ; "    " ].

(** helpers.ts 327-329: closing of the body and of the document. *)
Definition doc_q5 : string :=
  String.concat nl
    [ EmptyString
    ; "</body>"
    ; "</html>" ].

(** helpers.ts 160: the locator of the highlight theme stylesheet. *)
Definition highlight_css_href (vendor : option string) : string :=
  match vendor with
  | Some v =>
      if truthy v then v ++ "/highlight/styles/github-dark.min.css"
      else "https://cdnjs.cloudflare.com/ajax/libs/highlight.js/11.8.0/styles/github-dark.min.css"
  | None => "https://cdnjs.cloudflare.com/ajax/libs/highlight.js/11.8.0/styles/github-dark.min.css"
  end.

(** helpers.ts 161: the locator of the math stylesheet. *)
Definition katex_css_href (vendor : option string) : string :=
  match vendor with
  | Some v =>
      if truthy v then v ++ "/katex/katex.min.css"
      else "https://cdn.jsdelivr.net/npm/katex@0.16.9/dist/katex.min. css"
  | None => "https://cdn.jsdelivr.net/npm/katex@0.16.9/dist/katex.min. css"
  end.

(** helpers.ts 189: the locator of the highlighter runtime script. *)
Definition highlight_js_src (vendor : option string) : string :=
  match vendor with
  | Some v =>
      if truthy v then v ++ "/highlight/highlight.min.js"
      else "https://cdnjs.cloudflare.com/ajax/libs/highlight.js/11.8.0/highlight.min.js"
  | None => "https://cdnjs.cloudflare.com/ajax/libs/highlight.js/11.8.0/highlight.min.js"
  end.

(** helpers.ts 220-232: the interpolation inside the first style element. *)
Definition print_style (isForPdf : bool) : string :=
  if isForPdf then print_media_block else EmptyString.

(** Everything the template puts before the body content. *)
Definition document_head (isForPdf : bool) (vendor : option string) : string :=
  doc_q0 ++ highlight_css_href vendor
    ++ doc_q1 ++ katex_css_href vendor
    ++ doc_q2a ++ mermaid_bootstrap_script ++ doc_q2b ++ highlight_js_src vendor
    ++ doc_q3 ++ print_style isForPdf
    ++ doc_q4.

(** The template literal returned by [getHtmlForWebview]. *)
Definition document (isForPdf : bool) (vendor : option string) (htmlContent : string)
  : string :=
  document_head isForPdf vendor ++ htmlContent ++ doc_q5.

(** helpers.ts 152: [assetBase ? assetBase.replace(/\/$/, '') : undefined]. *)
Definition vendor_of (assetBase : option string) : option string :=
  match assetBase with
  | Some b => if truthy b then Some (strip_trailing_slash b) else None
  | None => None
  end.

(** ** The print-media block as style rules (helpers.ts 221-231) *)








(** ** The pipeline *)

(** The libraries [getHtmlForWebview] calls.  [marked_parse inst md] is
    [marked.parse(md)] run against the state [inst] of the [marked] object:
    the HTML it returns or the error it throws, and the lines the installed
    renderer wrote to the console on the way. *)
Record Libraries : Type := {
  hljs : Hljs;
  marked_parse : MarkedInstance -> string -> completion string * list string;
  purify : DOMPurify;
  twemoji : Twemoji
}.

Section Pipeline.

Variable L : Libraries.

(** [marked.parse(markdownContent)], on the process-wide [marked] object. *)
Definition parse (markdownContent : string) : Js World string :=
  fun w =>
    let (r, logged) := marked_parse L (marked w) markdownContent in
    (r, {| marked := marked w; console := (console w ++ logged)%list |}).

(** helpers.ts 109-121. *)
Definition markedOptions : ExtendedMarkedOptions :=
  {| renderer := {| render_code := renderer_code (hljs L) |};
     opt_highlight := fun code lang =>
       let language := if getLanguage (hljs L) lang then lang else "plaintext" in
       highlight (hljs L) code language;
     langPrefix := "hljs language-";
     gfm := true;
     breaks := false;
     smartLists := true;
     smartypants := false;
     xhtml := false |}.

(** [getHtmlForWebview] (helpers.ts 55-330).  [isForPdf] is the parameter
    after its default ([false]) has been applied. *)
Definition getHtmlForWebview (markdownContent : string) (isForPdf : bool)
    (assetBase : option string) : Js World string :=
  (marked_use markedKatex ;;
   marked_setOptions markedOptions ;;
   htmlContent <- parse markdownContent ;;
   let htmlContent := sanitize (purify L) sanitize_config htmlContent in
   let htmlContent :=
     if isForPdf then twemoji_parse (twemoji L) twemoji_options htmlContent
     else htmlContent in
   let vendor := vendor_of assetBase in
   ret (document isForPdf vendor htmlContent))%js.

(** The state of the [marked] object at the moment [marked.parse] runs in
    a call started in [w]. *)
Definition marked_at_parse (w : World) : MarkedInstance :=
  {| extensions := (extensions (marked w) ++ [markedKatex])%list;
     defaults := Some markedOptions |}.

(** One earlier call of the function, with its arguments. *)
Record Call : Type := {
  call_markdown : string;
  call_isForPdf : bool;
  call_assetBase : option string
}.

(** The world left behind by a sequence of calls. *)
Fixpoint after_calls (calls : list Call) (w : World) : World :=
  match calls with
  | [] => w
  | c :: rest =>
      after_calls rest
        (snd (getHtmlForWebview (call_markdown c) (call_isForPdf c) (call_assetBase c) w))
  end.

End Pipeline.

(** ** The diagram bootstrap script as a program (helpers.ts 164-187)

    The module script the template embeds is read as a small program, so
    that what the page does on load can be run.  [print_module] writes a
    program back as text; the text of the program below is the script of the
    template, character for character. *)

(** A literal written in the script. *)
Inductive Literal : Type :=
| LitBool (b : bool)
| LitString (s : string).

(** The statements the body of the listener is made of. *)
Inductive Statement : Type :=
| AwaitRun (options : list (string * Literal))
| LineComment (text : string)
| AssignWindow (property : string) (value : Literal)
| LogError (label variable : string).

(** [try { ... } catch (parameter) { ... }], the whole body of the
    listener. *)
Record TryCatch : Type := {
  try_block : list Statement;
  catch_parameter : string;
  catch_block : list Statement
}.

(** The items of the module, one per line or group of lines. *)
Inductive ModuleItem : Type :=
| ImportDefault (binding locator : string)
| BlankLine
| MermaidInitialize (options : list (string * Literal))
| ItemComment (text : string)
| AddWindowListener (event : string) (body : TryCatch).

(** helpers.ts 165-186. *)
Definition bootstrap_module : list ModuleItem :=
  [ ImportDefault "mermaid" "https://cdn.jsdelivr.net/npm/mermaid@10/dist/mermaid.esm.min.mjs"
  ; BlankLine
  ; MermaidInitialize
      [ ("startOnLoad", LitBool true)
      ; ("theme", LitString "default")
      ; ("securityLevel", LitString "loose")
      ; ("fontFamily",
         LitString ("-apple-system, BlinkMacSystemFont, " ++ dq ++ "Segoe UI" ++ dq
                      ++ ", Roboto, sans-serif")) ]
  ; BlankLine
  ; ItemComment "برای PDF export، صبر کنید تا همه نمودارها رندر شوند"
  ; AddWindowListener "load"
      {| try_block :=
           [ AwaitRun [ ("querySelector", LitString ".mermaid") ]
           ; LineComment "سیگنال به Puppeteer که رندر تمام شده"
           ; AssignWindow "mermaidReady" (LitBool true) ];
         catch_parameter := "error";
         catch_block :=
           [ LogError "Mermaid rendering error:" "error"
           ; AssignWindow "mermaidReady" (LitBool true) ] |} ].

(** *** The text of a program *)

Definition print_literal (v : Literal) : string :=
  match v with
  | LitBool true => "true"
  | LitBool false => "false"
  | LitString s => "'" ++ s ++ "'"
  end.

(** The properties of an object literal, one per line, separated by
    commas. *)
Fixpoint print_properties (indent : nat) (properties : list (string * Literal))
  : list string :=
  match properties with
  | [] => []
  | [ (name, v) ] => [ spaces indent ++ name ++ ": " ++ print_literal v ]
  | (name, v) :: rest =>
      (spaces indent ++ name ++ ": " ++ print_literal v ++ ",")
        :: print_properties indent rest
  end.

Definition print_statement (indent : nat) (st : Statement) : list string :=
  match st with
  | AwaitRun options =>
      app [ spaces indent ++ "await mermaid.run({" ]
        (app (print_properties (indent + 4) options)
           [ spaces indent ++ "});" ])
  | LineComment text => [ spaces indent ++ "// " ++ text ]
  | AssignWindow property value =>
      [ spaces indent ++ "window." ++ property ++ " = " ++ print_literal value ++ ";" ]
  | LogError label variable =>
      [ spaces indent ++ "console.error('" ++ label ++ "', " ++ variable ++ ");" ]
  end.

Definition print_try_catch (indent : nat) (t : TryCatch) : list string :=
  app [ spaces indent ++ "try {" ]
    (app (flat_map (print_statement (indent + 4)) (try_block t))
       (app [ spaces indent ++ "} catch (" ++ catch_parameter t ++ ") {" ]
          (app (flat_map (print_statement (indent + 4)) (catch_block t))
             [ spaces indent ++ "}" ]))).

Definition print_item (item : ModuleItem) : list string :=
  match item with
  | ImportDefault binding locator =>
      [ spaces 8 ++ "import " ++ binding ++ " from '" ++ locator ++ "';" ]
  | BlankLine => [ spaces 8 ]
  | MermaidInitialize options =>
      app [ spaces 8 ++ "mermaid.initialize({ " ]
        (app (print_properties 12 options) [ spaces 8 ++ "});" ])
  | ItemComment text => [ spaces 8 ++ "// " ++ text ]
  | AddWindowListener event body =>
      app [ spaces 8 ++ "window.addEventListener('" ++ event ++ "', async () => {" ]
        (app (print_try_catch 12 body) [ spaces 8 ++ "});" ])
  end.

(** The script element around the items of a module. *)
Definition print_module (items : list ModuleItem) : string :=
  String.concat nl
    (app [ "<script type=" ++ dq ++ "module" ++ dq ++ ">" ]
       (app (flat_map print_item items) [ spaces 4 ++ "</script>" ])).

(** *** What a program does to the page *)

(** How the promise of [mermaid.run] ends: it resolves (no diagram to
    render, or every diagram rendered), it rejects (a diagram failed), or it
    never settles. *)
Inductive RunOutcome : Type :=
| Resolves
| Rejects (error : string)
| NeverSettles.

(** Whether the module's import could be fetched and linked.  A module
    script whose import fails is not evaluated at all. *)
Inductive ModuleLoad : Type :=
| ImportFails
| ModuleLoads.

(** What happens in the page, oldest first. *)
Inductive PageEvent : Type :=
| Initialized (options : list (string * Literal))
| RunStarted (options : list (string * Literal))
| WindowAssigned (property : string) (value : Literal)
| PageConsoleError (label error : string).

Definition Page : Type := list PageEvent.

(** Where control goes after a statement: on to the next one, to the
    enclosing handler, or nowhere (the function stays suspended at its
    [await]). *)
Inductive Flow : Type :=
| Continues
| Throws (error : string)
| Suspends.

Fixpoint binding_of (variable : string) (bindings : list (string * string))
  : option string :=
  match bindings with
  | [] => None
  | (name, v) :: rest =>
      if (name =? variable)%string then Some v else binding_of variable rest
  end.

Definition exec_statement (run : RunOutcome) (bindings : list (string * string))
    (st : Statement) (p : Page) : Flow * Page :=
  match st with
  | AwaitRun options =>
      (match run with
       | Resolves => Continues
       | Rejects e => Throws e
       | NeverSettles => Suspends
       end,
       (p ++ [ RunStarted options ])%list)
  | LineComment _ => (Continues, p)
  | AssignWindow property value =>
      (Continues, (p ++ [ WindowAssigned property value ])%list)
  | LogError label variable =>
      match binding_of variable bindings with
      | Some v => (Continues, (p ++ [ PageConsoleError label v ])%list)
      | None => (Throws ("ReferenceError: " ++ variable ++ " is not defined"), p)
      end
  end.

Fixpoint exec_block (run : RunOutcome) (bindings : list (string * string))
    (block : list Statement) (p : Page) : Flow * Page :=
  match block with
  | [] => (Continues, p)
  | st :: rest =>
      match exec_statement run bindings st p with
      | (Continues, p') => exec_block run bindings rest p'
      | stopped => stopped
      end
  end.

(** The handler runs when the [try] block throws, with the thrown value
    bound to its parameter. *)
Definition exec_try_catch (run : RunOutcome) (t : TryCatch) (p : Page) : Flow * Page :=
  match exec_block run [] (try_block t) p with
  | (Throws e, p') => exec_block run [ (catch_parameter t, e) ] (catch_block t) p'
  | other => other
  end.

(** The page once the module has been evaluated: what happened, and the
    listeners registered for the window's [load] event. *)
Record Window : Type := {
  window_events : Page;
  load_listeners : list TryCatch
}.

Fixpoint evaluate_items (items : list ModuleItem) (w : Window) : Window :=
  match items with
  | [] => w
  | MermaidInitialize options :: rest =>
      evaluate_items rest
        {| window_events := (window_events w ++ [ Initialized options ])%list;
           load_listeners := load_listeners w |}
  | AddWindowListener event body :: rest =>
      evaluate_items rest
        {| window_events := window_events w;
           load_listeners :=
             if (event =? "load")%string then (load_listeners w ++ [ body ])%list
             else load_listeners w |}
  | _ :: rest => evaluate_items rest w
  end.

Definition evaluate_module (load : ModuleLoad) (items : list ModuleItem) : Window :=
  match load with
  | ImportFails => {| window_events := []; load_listeners := [] |}
  | ModuleLoads => evaluate_items items {| window_events := []; load_listeners := [] |}
  end.

(** The [load] event: every registered listener is run, in order of
    registration.  A listener is an async function: what becomes of its
    promise does not stop the others. *)
Fixpoint dispatch_load (run : RunOutcome) (listeners : list TryCatch) (p : Page)
  : list Flow * Page :=
  match listeners with
  | [] => ([], p)
  | l :: rest =>
      let (flow, p') := exec_try_catch run l p in
      let (flows, p'') := dispatch_load run rest p' in
      (flow :: flows, p'')
  end.

(** One load of a document that embeds the module. *)
Definition document_load (items : list ModuleItem) (load : ModuleLoad)
    (run : RunOutcome) : list Flow * Page :=
  let w := evaluate_module load items in
  dispatch_load run (load_listeners w) (window_events w).

(** The value of [window.property] after a trace ([None]: never set). *)
Fixpoint window_property (property : string) (p : Page) : option Literal :=
  match p with
  | [] => None
  | WindowAssigned name v :: rest =>
      match window_property property rest with
      | Some v' => Some v'
      | None => if (name =? property)%string then Some v else None
      end
  | _ :: rest => window_property property rest
  end.

Definition mermaidReady (p : Page) : option Literal :=
  window_property "mermaidReady" p.

(** How many times [window.property] was written. *)
Fixpoint assignments (property : string) (p : Page) : nat :=
  match p with
  | [] => 0
  | WindowAssigned name _ :: rest =>
      (if (name =? property)%string then 1 else 0) + assignments property rest
  | _ :: rest => assignments property rest
  end.

(** The errors written to the page's console. *)
Fixpoint page_errors (p : Page) : list (string * string) :=
  match p with
  | [] => []
  | PageConsoleError label error :: rest => (label, error) :: page_errors rest
  | _ :: rest => page_errors rest
  end.

(** ** Vocabulary of the specification *)

(** HTML escaping of text content, as the conversion engine's default
    renderer does it: the five characters [&], [<], [>], the double quote and
    the apostrophe become entities. *)
Fixpoint html_escape (s : string) : string :=
  match s with
  | EmptyString => EmptyString
  | String c s' =>
      (if Ascii.eqb c "&" then "&amp;"
       else if Ascii.eqb c "<" then "&lt;"
       else if Ascii.eqb c ">" then "&gt;"
       else if Ascii.eqb c (ascii_of_nat 34) then "&quot;"
       else if Ascii.eqb c "'" then "&#39;"
       else String c EmptyString) ++ html_escape s'
  end.

(** The visual shell shared by the highlighted and the fallback block: the
    opening of the block and of its header, up to the language label. *)
Definition shell_before_label : string :=
  String.concat nl
    [ EmptyString
    ; "                <div class=" ++ dq ++ "code-block" ++ dq ++ ">"
    ; "                    <div class=" ++ dq ++ "code-header" ++ dq ++ ">"
    ; "                        <span class=" ++ dq ++ "language" ++ dq ++ ">" ].

(** The rest of the header, with the copy button, up to the opening of the
    code element. *)
Definition shell_after_label : string :=
  String.concat nl
    [ "</span>"
    ; "                        <button class=" ++ dq ++ "copy-button" ++ dq ++ " onclick=" ++ dq ++ "copyToClipboard(this)" ++ dq ++ " title=" ++ dq ++ "Copy to clipboard" ++ dq ++ ">"
    ; "                            <svg width=" ++ dq ++ "16" ++ dq ++ " height=" ++ dq ++ "16" ++ dq ++ " viewBox=" ++ dq ++ "0 0 24 24" ++ dq ++ " fill=" ++ dq ++ "none" ++ dq ++ " stroke=" ++ dq ++ "currentColor" ++ dq ++ " stroke-width=" ++ dq ++ "2" ++ dq ++ ">"
    ; "                                <rect x=" ++ dq ++ "9" ++ dq ++ " y=" ++ dq ++ "9" ++ dq ++ " width=" ++ dq ++ "13" ++ dq ++ " height=" ++ dq ++ "13" ++ dq ++ " rx=" ++ dq ++ "2" ++ dq ++ " ry=" ++ dq ++ "2" ++ dq ++ "></rect>"
    ; "                                <path d=" ++ dq ++ "M5 15H4a2 2 0 0 1-2-2V4a2 2 0 0 1 2-2h9a2 2 0 0 1 2 2v1" ++ dq ++ "></path>"
    ; "                            </svg>"
    ; "                        </button>"
    ; "                    </div>"
    ; "                    <pre><code" ].

Definition shell_open (label : string) : string :=
  shell_before_label ++ label ++ shell_after_label.

(** The closing of the block, after the code content. *)
Definition shell_close : string :=
  String.concat nl
    [ "</code></pre>"
    ; "                </div>"
    ; "            " ].

(** The shell around unhighlighted code content. *)
Definition plain_shell (label content : string) : string :=
  shell_open label ++ ">" ++ content ++ shell_close.

(** The shell around highlighted code content, the code element carrying the
    highlighter classes for [language]. *)
Definition highlighted_shell (label language content : string) : string :=
  shell_open label ++ " class=" ++ dq ++ "hljs language-" ++ language ++ dq ++ ">"
    ++ content ++ shell_close.













(** The text up to the next double quote. *)
Fixpoint until_dq (s : string) : string :=
  match s with
  | EmptyString => EmptyString
  | String c s' =>
      if Ascii.eqb c (ascii_of_nat 34) then EmptyString else String c (until_dq s')
  end.

(** [s] without its first [n] characters. *)
Fixpoint drop (n : nat) (s : string) : string :=
  match n, s with
  | O, _ => s
  | S _, EmptyString => EmptyString
  | S n', String _ s' => drop n' s'
  end.

(** The values that follow each occurrence of [marker] in [s], read up to the
    closing double quote, in order of appearance. *)
Fixpoint values_after (marker s : string) : list string :=
  (if startsWith s marker then [until_dq (drop (String.length marker) s)] else [])
  ++ match s with
     | EmptyString => []
     | String _ s' => values_after marker s'
     end.

(** The locators of the stylesheet links of a document. *)
Definition stylesheet_links (doc : string) : list string :=
  values_after ("<link rel=" ++ dq ++ "stylesheet" ++ dq ++ " href=" ++ dq) doc.

(** The locators of the scripts a document loads by reference. *)
Definition script_sources (doc : string) : list string :=
  values_after ("<script src=" ++ dq) doc.


(** ** Contracts of the libraries, for the statements that need one *)


(** The emoji postprocessor returns a text free of emoji glyphs unchanged. *)
Definition noop_without_emoji (T : Twemoji) : Prop :=
  forall o s, twemoji_test T s = false -> twemoji_parse T o s = s.

(** With the options of [getHtmlForWebview] installed, the HTML
    [marked.parse] returns does not depend on how many times an extension
    has been registered. *)
Definition registration_insensitive (L : Libraries) : Prop :=
  forall exts exts' md,
    exts <> [] -> exts' <> [] ->
    fst (marked_parse L {| extensions := exts; defaults := Some (markedOptions L) |} md)
    = fst (marked_parse L {| extensions := exts'; defaults := Some (markedOptions L) |} md).

(** The fenced code blocks of a Markdown source as [marked] reads them: the
    text and the language tag of each, as its lexer hands them to the
    renderer's [code] method, in order. *)
Definition CodeTokens : Type := string -> list (string * option string).

(** [marked.parse] renders every fenced block of the source through the
    [code] method of the installed renderer, and what the method returns is
    part of the HTML it produces. *)
Definition renders_code_blocks (L : Libraries) (code_tokens : CodeTokens) : Prop :=
  forall inst o md html logged,
    defaults inst = Some o ->
    marked_parse L inst md = (Normal html, logged) ->
    forall code language,
      In (code, language) (code_tokens md) ->
      exists c block c',
        render_code (renderer o) code language c = (Normal block, c')
        /\ includes html block = true.







(** The sanitizer followed, for PDF, by the emoji postprocessor
    (helpers.ts 129-150). *)
Definition postprocess (L : Libraries) (isForPdf : bool) (html : string) : string :=
  let htmlContent := sanitize (purify L) sanitize_config html in
  if isForPdf then twemoji_parse (twemoji L) twemoji_options htmlContent
  else htmlContent.

(** The same libraries with another emoji postprocessor. *)
Definition with_twemoji (L : Libraries) (T : Twemoji) : Libraries :=
  {| hljs := hljs L;
     marked_parse := marked_parse L;
     purify := purify L;
     twemoji := T |}.

(** ** Small instances of the library interfaces

    Stand-ins with just enough behaviour to run the pipeline on concrete
    inputs; they are no model of the real libraries. *)
Module Sample.

Definition known_languages : list string := [ "plaintext"; "python"; "javascript" ].

Definition known (name : string) : bool :=
  existsb (String.eqb name) known_languages.

(** Escapes the code and adds no markup; throws on an unknown language. *)
Definition highlighter : Hljs :=
  {| getLanguage := known;
     highlight := fun code language =>
       if known language then Normal (html_escape code)
       else Abrupt ("Error: Unknown language: " ++ dq ++ language ++ dq) |}.

(** A highlighter whose [highlight] throws on every input. *)
Definition failing_highlighter : Hljs :=
  {| getLanguage := known;
     highlight := fun _ _ => Abrupt "Error: highlighter failure" |}.

(** [s] without the prefix [p], when it starts with it. *)
Definition after_prefix (p s : string) : option string :=
  if startsWith s p then Some (drop (String.length p) s) else None.

(** [s] cut at its first line feed. *)
Fixpoint cut_line (s : string) : string * string :=
  match s with
  | EmptyString => (EmptyString, EmptyString)
  | String c s' =>
      if Ascii.eqb c (ascii_of_nat 10) then (EmptyString, s')
      else let (l, r) := cut_line s' in (String c l, r)
  end.

(** [s] without the suffix [q], when it ends with it. *)
Fixpoint before_suffix (q s : string) : option string :=
  if (s =? q)%string then Some EmptyString
  else match s with
       | EmptyString => None
       | String c s' => option_map (String c) (before_suffix q s')
       end.

(** A document that is one fenced block: its tag and its text. *)
Definition fence (md : string) : option (option string * string) :=
  match after_prefix "```" md with
  | Some rest =>
      let (tag, body) := cut_line rest in
      match before_suffix (nl ++ "```") body with
      | Some text => Some (if truthy tag then Some tag else None, text)
      | None => None
      end
  | None => None
  end.

(** Renders a document that is one fenced block through the installed
    renderer, and any other document as one escaped paragraph. *)
Definition parser (inst : MarkedInstance) (md : string)
  : completion string * list string :=
  match defaults inst, fence md with
  | Some o, Some (tag, text) => render_code (renderer o) text tag []
  | _, _ => (Normal ("<p>" ++ html_escape md ++ "</p>" ++ nl), [])
  end.

(** Drops a fragment that carries a script element and returns any other
    fragment unchanged. *)
Definition sanitizer : DOMPurify :=
  {| sanitize := fun _ s => if includes s "<script" then EmptyString else s;
     profile_tag := fun _ t => negb (lower t =? "script")%string;
     profile_attr := fun _ a => negb (startsWith (lower a) "on") |}.

(** The one glyph the sample postprocessor knows (U+2705). *)
Definition glyph : string := "✅".

Definition glyph_image (o : TwemojiOptions) : string :=
  "<img class=" ++ dq ++ "emoji" ++ dq ++ " draggable=" ++ dq ++ "false" ++ dq
    ++ " alt=" ++ dq ++ glyph ++ dq
    ++ " src=" ++ dq ++ base o ++ folder o ++ "/" ++ "2705" ++ ext o ++ dq ++ "/>".

(** Replaces each occurrence of [glyph]; [skip] counts the characters of a
    glyph still to be passed over. *)
Fixpoint replace_glyphs (o : TwemojiOptions) (skip : nat) (s : string) : string :=
  match s with
  | EmptyString => EmptyString
  | String c s' =>
      match skip with
      | S k => replace_glyphs o k s'
      | O =>
          if startsWith s glyph
          then glyph_image o ++ replace_glyphs o (String.length glyph - 1) s'
          else String c (replace_glyphs o 0 s')
      end
  end.

Definition emoji : Twemoji :=
  {| twemoji_parse := fun o s => replace_glyphs o 0 s;
     twemoji_test := fun s => includes s glyph |}.

Definition libraries : Libraries :=
  {| hljs := highlighter;
     marked_parse := parser;
     purify := sanitizer;
     twemoji := emoji |}.

Definition failing_libraries : Libraries :=
  {| hljs := failing_highlighter;
     marked_parse := parser;
     purify := sanitizer;
     twemoji := emoji |}.

(** A process in which [marked] has not been touched yet. *)
Definition fresh : World :=
  {| marked := {| extensions := []; defaults := None |};
     console := [] |}.



(** The fenced blocks [parser] renders: the block of a document that is one
    fenced block. *)
Definition code_tokens : CodeTokens :=
  fun md =>
    match fence md with
    | Some (tag, text) => [ (text, tag) ]
    | None => []
    end.







(** An image set of one glyph. *)
Definition emoji_set : EmojiSet := [ (glyph, "2705") ].

End Sample.

(** * The rest of the extension

    [getChromeExecutableCandidates] of [src/helpers.ts] and the browser
    handling, preview and export code of [src/extension.ts]. *)

(** ** Chrome executable discovery ([getChromeExecutableCandidates],
    helpers.ts 10-43) *)

(** What the function reads of [process]: the platform and two environment
    variables ([None]: the variable is not set). *)
Record Process : Type := {
  platform : string;
  PUPPETEER_EXECUTABLE_PATH : option string;
  CHROME_PATH : option string
}.

(** helpers.ts 14-21. *)
Definition linux_candidates : list string :=
  [ "/usr/bin/google-chrome-stable";
    "/usr/bin/google-chrome";
    "/usr/bin/chromium";
    "/usr/bin/chromium-browser";
    "/snap/bin/chromium";
    "/opt/google/chrome/chrome" ].

(** helpers.ts 23-29. *)
Definition darwin_candidates : list string :=
  [ "/Applications/Google Chrome. app/Contents/MacOS/Google Chrome";
    "/Applications/Chromium.app/Contents/MacOS/Chromium";
    "/Applications/Brave Browser.app/Contents/MacOS/Brave Browser";
    "/Applications/Comet. app/Contents/MacOS/Comet";
    "/Applications/Dia.app/Contents/MacOS/Dia" ].

(** helpers.ts 31-35. *)
Definition win32_candidates : list string :=
  [ "C:/Program Files/Google/Chrome/Application/chrome.exe";
    "C:/Program Files (x86)/Google/Chrome/Application/chrome. exe";
    "C:/Program Files/Chromium/Application/chrome.exe" ].

(** The [candidates] array after the platform switch (helpers.ts 11-36). *)
Definition platform_candidates (platform : string) : list string :=
  if (platform =? "linux")%string then linux_candidates
  else if (platform =? "darwin")%string then darwin_candidates
  else if (platform =? "win32")%string then win32_candidates
  else [].

(** The filter predicate of helpers.ts 41: [!!p && p.length > 0]. *)
Definition env_path_set (p : option string) : bool :=
  match p with
  | Some s => truthy s && (0 <? String.length s)%nat
  | None => false
  end.

(** [envPaths] (helpers.ts 38-41): the two variables, in this order, those
    unset or empty left out. *)
Definition envPaths (proc : Process) : list string :=
  flat_map (fun p => match p with
                     | Some s => if env_path_set p then [ s ] else []
                     | None => []
                     end)
    [ PUPPETEER_EXECUTABLE_PATH proc; CHROME_PATH proc ].

(** [arr.indexOf(p)]: the index of the first element strictly equal to [p],
    or [-1]. *)
Fixpoint indexOf (arr : list string) (p : string) : Z :=
  match arr with
  | [] => (-1)%Z
  | x :: rest =>
      if (x =? p)%string then 0%Z
      else let i := indexOf rest p in
           if (i <? 0)%Z then (-1)%Z else (i + 1)%Z
  end.

(** [Array.prototype.filter] with a predicate that also receives the index;
    [idx] is the index of the head of [l] in the array being filtered. *)
Fixpoint filter_indexed (f : string -> Z -> bool) (idx : Z) (l : list string)
  : list string :=
  match l with
  | [] => []
  | p :: rest =>
      (if f p idx then [ p ] else []) ++ filter_indexed f (idx + 1)%Z rest
  end%list.

(** [arr.filter((p, idx, arr) => arr.indexOf(p) === idx)] (helpers.ts 42). *)
Definition first_occurrences (arr : list string) : list string :=
  filter_indexed (fun p idx => (indexOf arr p =? idx)%Z) 0%Z arr.

(** [getChromeExecutableCandidates] (helpers.ts 10-43). *)
Definition getChromeExecutableCandidates (proc : Process) : list string :=
  first_occurrences (envPaths proc ++ platform_candidates (platform proc))%list.

(** ** The extension host ([src/extension.ts]) *)

(** A [puppeteer.Browser] and a [puppeteer.Page], known by identity. *)
Inductive Browser : Type :=
| BrowserHandle (id : nat).

Inductive PuppeteerPage : Type :=
| PageHandle (id : nat).

(** The options object of [puppeteer.launch]. *)
Record LaunchOptions : Type := {
  executablePath : option string;
  headless : bool;
  args : list string
}.

(** What the extension does to the outside, oldest first. *)
Inductive HostEvent : Type :=
| ConsoleLog (line : string)
| ConsoleError (arguments : list string)
| Launch (options : LaunchOptions)
| CloseBrowser (browser : Browser)
| NewPage (browser : Browser)
| SetDefaultNavigationTimeout (page : PuppeteerPage) (milliseconds : Z)
| SetContent (page : PuppeteerPage) (content waitUntil : string)
| WaitForMermaidReady (page : PuppeteerPage) (timeout : Z)
| WaitForNetworkIdle (page : PuppeteerPage) (timeout : Z)
| PrintPdf (page : PuppeteerPage)
| ClosePage (page : PuppeteerPage)
| ShowErrorMessage (message : string)
| ShowInformationMessage (message : string)
| ShowSaveDialog (defaultPath filterName : string) (filterExtensions : list string)
| WithProgress (title : string)
| WriteFile (fsPath content : string).

(** The state of the extension host: the process-wide state of the
    rendering pipeline, the two module variables of extension.ts 7-8, the
    [html] of the preview panel and the trace of events.  A pending
    [browserInitPromise] is known by the outcome it settles to. *)
Record Host : Type := {
  pipeline_world : World;
  browserInstance : option Browser;
  browserInitPromise : option (completion Browser);
  panel_html : option string;
  trace : list HostEvent
}.

(** The environment of the extension: Node's [process], [fs] and [path],
    puppeteer, the parts of the VS Code API the code calls, and the libraries
    of the rendering pipeline.  A call that throws is recorded by the message
    the handlers read from the thrown value
    ([error instanceof Error ? error.message : String(error)]). *)
Record HostEnv : Type := {
  process : Process;
  fs_existsSync : string -> bool;
  fs_writeFileSync : string -> string -> completion unit;
  path_join : list string -> string;
  path_basename : string -> option string -> string;
  path_extname : string -> string;
  puppeteer_launch : LaunchOptions -> completion Browser;
  browser_connected : Browser -> bool;
  browser_close : Browser -> completion unit;
  browser_newPage : Browser -> completion PuppeteerPage;
  page_setContent : PuppeteerPage -> string -> completion unit;
  page_waitForMermaidReady : PuppeteerPage -> completion unit;
  page_waitForNetworkIdle : PuppeteerPage -> completion unit;
  page_pdf : PuppeteerPage -> completion string;
  page_isClosed : PuppeteerPage -> bool;
  page_close : PuppeteerPage -> completion unit;
  window_showSaveDialog : string -> option string;
  webview_asWebviewUri : string -> completion string;
  libraries : Libraries
}.

(** The active text editor, as the commands read it. *)
Record TextEditor : Type := {
  languageId : string;
  document_text : string;
  document_fileName : string;
  document_fsPath : string
}.

(** [throw error]. *)
Definition throw {S A} (error : string) : Js S A := fun s => (Abrupt error, s).

(** [try { body } finally { cleanup }]: the cleanup runs on both outcomes of
    the body, and an error it throws replaces the body's outcome. *)
Definition try_finally {S A} (body : Js S A) (cleanup : Js S unit) : Js S A :=
  fun s =>
    let (r, s1) := body s in
    match cleanup s1 with
    | (Normal _, s2) => (r, s2)
    | (Abrupt e, s2) => (Abrupt e, s2)
    end.

Definition emit (e : HostEvent) : Js Host unit :=
  fun h =>
    (Normal tt,
     {| pipeline_world := pipeline_world h;
        browserInstance := browserInstance h;
        browserInitPromise := browserInitPromise h;
        panel_html := panel_html h;
        trace := (trace h ++ [ e ])%list |}).

Definition set_browserInstance (b : option Browser) : Js Host unit :=
  fun h =>
    (Normal tt,
     {| pipeline_world := pipeline_world h;
        browserInstance := b;
        browserInitPromise := browserInitPromise h;
        panel_html := panel_html h;
        trace := trace h |}).

Definition set_browserInitPromise (p : option (completion Browser)) : Js Host unit :=
  fun h =>
    (Normal tt,
     {| pipeline_world := pipeline_world h;
        browserInstance := browserInstance h;
        browserInitPromise := p;
        panel_html := panel_html h;
        trace := trace h |}).

Definition set_panel_html (content : string) : Js Host unit :=
  fun h =>
    (Normal tt,
     {| pipeline_world := pipeline_world h;
        browserInstance := browserInstance h;
        browserInitPromise := browserInitPromise h;
        panel_html := Some content;
        trace := trace h |}).

(** A computation of the rendering pipeline, run on the host's share of it. *)
Definition in_world {A} (m : Js World A) : Js Host A :=
  fun h =>
    let (r, w) := m (pipeline_world h) in
    (r,
     {| pipeline_world := w;
        browserInstance := browserInstance h;
        browserInitPromise := browserInitPromise h;
        panel_html := panel_html h;
        trace := trace h |}).

(** The [args] of both [puppeteer.launch] calls (extension.ts 28-33, 55-60). *)
Definition launch_args : list string :=
  [ "--no-sandbox"; "--disable-setuid-sandbox"; "--disable-dev-shm-usage"; "--disable-gpu" ].

(** How one round of the launch strategies ends: with [return browser], or
    by falling through to the next one with the current [lastError] (its
    message; [None] is [null]). *)
Inductive Round : Type :=
| Returned (browser : Browser)
| Continue (lastError : option string).

Section Extension.

Variable E : HostEnv.

(** [await puppeteer.launch(options)]. *)
Definition launch (options : LaunchOptions) : Js Host Browser :=
  (emit (Launch options) ;;
   call (puppeteer_launch E options))%js.

(** Strategy 1 (extension.ts 24-41). *)
Definition try_bundled : Js Host Round :=
  try_catch
    (emit (ConsoleLog "Attempting to launch bundled Chromium...") ;;
     browser <- launch {| executablePath := None; headless := true; args := launch_args |} ;;
     set_browserInstance (Some browser) ;;
     emit (ConsoleLog "Successfully launched bundled Chromium") ;;
     ret (Returned browser))%js
    (fun error =>
       emit (ConsoleError [ "Failed to launch bundled Chromium:"; error ]) ;;
       ret (Continue (Some error)))%js.

(** One iteration of the loop of strategy 2 (extension.ts 45-68). *)
Definition try_candidate (path : string) (lastError : option string) : Js Host Round :=
  try_catch
    (if negb (fs_existsSync E path) then
       emit (ConsoleLog ("Skipping non-existent path: " ++ path)) ;;
       ret (Continue lastError)
     else
       emit (ConsoleLog ("Attempting to launch browser at: " ++ path)) ;;
       browser <- launch {| executablePath := Some path; headless := true;
                            args := launch_args |} ;;
       set_browserInstance (Some browser) ;;
       emit (ConsoleLog ("Successfully launched browser at: " ++ path)) ;;
       ret (Returned browser))%js
    (fun error =>
       emit (ConsoleError [ "Failed to launch browser at " ++ path ++ ":"; error ]) ;;
       ret (Continue (Some error)))%js.

(** Strategy 2 (extension.ts 44-69): the loop over the candidates. *)
Fixpoint try_candidates (candidates : list string) (lastError : option string)
  : Js Host Round :=
  match candidates with
  | [] => ret (Continue lastError)
  | path :: rest =>
      (r <- try_candidate path lastError ;;
       match r with
       | Returned browser => ret (Returned browser)
       | Continue lastError' => try_candidates rest lastError'
       end)%js
  end.

(** The message of the error thrown when every strategy failed
    (extension.ts 72-74). *)
Definition launch_failure_message (lastError : option string) : string :=
  match lastError with
  | Some message =>
      "Failed to launch browser.  Last error: " ++ message
        ++ ". Please ensure Chrome or Chromium is installed. "
  | None => "Failed to launch browser. No executable paths were tried."
  end.

(** The body of the promise stored in [browserInitPromise]
    (extension.ts 19-77). *)
Definition launch_browser : Js Host Browser :=
  (let candidates := getChromeExecutableCandidates (process E) in
   r <- try_bundled ;;
   match r with
   | Returned browser => ret browser
   | Continue lastError =>
       r' <- try_candidates candidates lastError ;;
       match r' with
       | Returned browser => ret browser
       | Continue lastError' => throw (launch_failure_message lastError')
       end
   end)%js.

(** [browserInstance && browserInstance.connected], as the browser it
    yields. *)
Definition connected_instance (h : Host) : option Browser :=
  match browserInstance h with
  | Some b => if browser_connected E b then Some b else None
  | None => None
  end.

(** [initBrowser] (extension.ts 10-85). *)
Definition initBrowser : Js Host Browser :=
  fun h =>
    match connected_instance h with
    | Some b => (Normal b, h)
    | None =>
        match browserInitPromise h with
        | Some pending => (pending, h)
        | None =>
            let (outcome, h1) := launch_browser h in
            (set_browserInitPromise (Some outcome) ;;
             try_finally (call outcome) (set_browserInitPromise None))%js h1
        end
    end.

(** [getBrowserInstance] (extension.ts 87-92). *)
Definition getBrowserInstance : Js Host Browser :=
  fun h =>
    match connected_instance h with
    | Some b => (Normal b, h)
    | None => initBrowser h
    end.

(** [cleanupBrowser] (extension.ts 94-105). *)
Definition cleanupBrowser : Js Host unit :=
  fun h =>
    match browserInstance h with
    | Some b =>
        try_finally
          (try_catch
             (emit (CloseBrowser b) ;;
              call (browser_close E b) ;;
              emit (ConsoleLog "Browser instance closed successfully"))%js
             (fun error => emit (ConsoleError [ "Error closing browser:"; error ])))
          (set_browserInstance None) h
    | None => (Normal tt, h)
    end.

(** [deactivate] (extension.ts 299-301). *)
Definition deactivate : Js Host unit := cleanupBrowser.

(** [updateContent] (extension.ts 278-297) for a document with the given
    text. *)
Definition updateContent (markdownContent extensionPath : string) : Js Host unit :=
  (assetBase <-
     try_catch
       (let vendorFolder := path_join E [ extensionPath; "assets"; "vendor" ] in
        uri <- call (webview_asWebviewUri E vendorFolder) ;;
        ret (Some uri))
       (fun _ => ret None) ;;
   html <- in_world (getHtmlForWebview (libraries E) markdownContent false assetBase) ;;
   set_panel_html html)%js.

(** [fs.writeFileSync(fsPath, content)]. *)
Definition write_file (fsPath content : string) : Js Host unit :=
  (emit (WriteFile fsPath content) ;;
   call (fs_writeFileSync E fsPath content))%js.

(** [await vscode.window.showSaveDialog({ defaultUri, filters })], as the
    [fsPath] of the chosen location. *)
Definition show_save_dialog (defaultPath filterName : string)
    (filterExtensions : list string) : Js Host (option string) :=
  (emit (ShowSaveDialog defaultPath filterName filterExtensions) ;;
   ret (window_showSaveDialog E defaultPath))%js.

(** The guard of the export commands:
    [!editor || editor.document.languageId !== 'markdown']. *)
Definition markdown_editor (editor : option TextEditor) : option TextEditor :=
  match editor with
  | Some ed => if (languageId ed =? "markdown")%string then Some ed else None
  | None => None
  end.

(** The asset base of both export commands (extension.ts 161, 197). *)
Definition assetBaseForExport (extensionPath : string) : string :=
  "file://" ++ path_join E [ extensionPath; "assets"; "vendor" ].

(** The handler of [markdown-rich-preview.exportToHtml]
    (extension.ts 151-181). *)
Definition exportToHtml (editor : option TextEditor) (extensionPath : string)
  : Js Host unit :=
  match markdown_editor editor with
  | None => emit (ShowErrorMessage "Please open a Markdown file first to export.")
  | Some ed =>
      (let markdownContent := document_text ed in
       htmlContent <-
         in_world (getHtmlForWebview (libraries E) markdownContent false
                     (Some (assetBaseForExport extensionPath))) ;;
       let defaultFileName :=
         path_basename E (document_fileName ed)
           (Some (path_extname E (document_fileName ed))) ++ ".html" in
       uri <- show_save_dialog
                (path_join E [ document_fsPath ed; ".."; defaultFileName ])
                "HTML Files" [ "html" ] ;;
       match uri with
       | Some fsPath =>
           try_catch
             (write_file fsPath htmlContent ;;
              emit (ShowInformationMessage ("Successfully exported HTML to " ++ fsPath)))
             (fun error => emit (ShowErrorMessage ("Failed to export HTML: " ++ error)))
       | None => ret tt
       end)%js
  end.

(** The frame of the progress callback of the PDF export: the host and the
    local variable [page] (extension.ts 210). *)
Record PdfFrame : Type := {
  frame_host : Host;
  frame_page : option PuppeteerPage
}.

Definition in_host {A} (m : Js Host A) : Js PdfFrame A :=
  fun f =>
    let (r, h) := m (frame_host f) in
    (r, {| frame_host := h; frame_page := frame_page f |}).

Definition set_page (p : option PuppeteerPage) : Js PdfFrame unit :=
  fun f => (Normal tt, {| frame_host := frame_host f; frame_page := p |}).

(** [page.close().catch(console.error)]. *)
Definition close_page (p : PuppeteerPage) : Js Host unit :=
  try_catch
    (emit (ClosePage p) ;;
     call (page_close E p))%js
    (fun error => emit (ConsoleError [ error ])).

(** The [finally] block of extension.ts 262-266. *)
Definition close_open_page : Js PdfFrame unit :=
  fun f =>
    match frame_page f with
    | Some p =>
        if negb (page_isClosed E p) then in_host (close_page p) f
        else (Normal tt, f)
    | None => (Normal tt, f)
    end.

(** The progress callback of the PDF export (extension.ts 216-267). *)
Definition pdf_task (htmlContent fsPath : string) : Js PdfFrame unit :=
  try_finally
    (try_catch
       (browser <- in_host getBrowserInstance ;;
        p <- in_host (emit (NewPage browser) ;; call (browser_newPage E browser)) ;;
        set_page (Some p) ;;
        in_host (emit (SetDefaultNavigationTimeout p 30000%Z)) ;;
        in_host (emit (SetContent p htmlContent "domcontentloaded") ;;
                 call (page_setContent E p htmlContent)) ;;
        try_catch
          (in_host (emit (WaitForMermaidReady p 10000%Z) ;;
                    call (page_waitForMermaidReady E p)) ;;
           in_host (emit (ConsoleLog "Mermaid diagrams rendered successfully")))
          (fun _ =>
             in_host (emit (ConsoleLog
                              "Mermaid rendering timeout or no mermaid diagrams present"))) ;;
        try_catch
          (in_host (emit (WaitForNetworkIdle p 2000%Z) ;;
                    call (page_waitForNetworkIdle E p)))
          (fun _ => ret tt) ;;
        pdfBuffer <- in_host (emit (PrintPdf p) ;; call (page_pdf E p)) ;;
        in_host (write_file fsPath pdfBuffer) ;;
        in_host (emit (ShowInformationMessage
                         ("Successfully exported PDF to " ++ path_basename E fsPath None))))%js
       (fun error =>
          in_host (emit (ShowErrorMessage ("Failed to export PDF: " ++ error))) ;;
          in_host (emit (ConsoleError [ "PDF Export Error:"; error ])) ;;
          throw error)%js)
    close_open_page.

(** [vscode.window.withProgress(options, task)] for the PDF task: the
    callback runs with [page] still [null], and its promise is the result. *)
Definition with_progress (title : string) (task : Js PdfFrame unit) : Js Host unit :=
  (emit (WithProgress title) ;;
   fun h =>
     let (r, f) := task {| frame_host := h; frame_page := None |} in
     (r, frame_host f))%js.

(** The body of [if (uri) { ... }] in the PDF export (extension.ts 209-272):
    the progress task, and the outer [catch] that logs what it throws. *)
Definition generate_pdf (htmlContent fsPath : string) : Js Host unit :=
  try_catch
    (with_progress "Generating PDF..." (pdf_task htmlContent fsPath))
    (fun error => emit (ConsoleError [ "Error in PDF export:"; error ])).

(** The handler of [markdown-rich-preview.exportToPdf]
    (extension.ts 186-273). *)
Definition exportToPdf (editor : option TextEditor) (extensionPath : string)
  : Js Host unit :=
  match markdown_editor editor with
  | None => emit (ShowErrorMessage "Please open a Markdown file first to export to PDF.")
  | Some ed =>
      (let markdownContent := document_text ed in
       htmlContent <-
         in_world (getHtmlForWebview (libraries E) markdownContent true
                     (Some (assetBaseForExport extensionPath))) ;;
       let defaultFileName :=
         path_basename E (document_fileName ed)
           (Some (path_extname E (document_fileName ed))) ++ ".pdf" in
       uri <- show_save_dialog
                (path_join E [ document_fsPath ed; ".."; defaultFileName ])
                "PDF Files" [ "pdf" ] ;;
       match uri with
       | Some fsPath => generate_pdf htmlContent fsPath
       | None => ret tt
       end)%js
  end.

End Extension.

(** ** Reading a host state *)

(** The host after some more events. *)
Definition after_events (h : Host) (events : list HostEvent) : Host :=
  {| pipeline_world := pipeline_world h;
     browserInstance := browserInstance h;
     browserInitPromise := browserInitPromise h;
     panel_html := panel_html h;
     trace := (trace h ++ events)%list |}.

(** The host with another cached browser. *)
Definition with_browser (h : Host) (b : option Browser) : Host :=
  {| pipeline_world := pipeline_world h;
     browserInstance := b;
     browserInitPromise := browserInitPromise h;
     panel_html := panel_html h;
     trace := trace h |}.

(** The host with another state of the rendering pipeline. *)
Definition with_world (h : Host) (w : World) : Host :=
  {| pipeline_world := w;
     browserInstance := browserInstance h;
     browserInitPromise := browserInitPromise h;
     panel_html := panel_html h;
     trace := trace h |}.

(** The options of the launch of the executable at [path] ([None]: the
    bundled Chromium). *)
Definition launch_options (path : option string) : LaunchOptions :=
  {| executablePath := path; headless := true; args := launch_args |}.

(** The events of the launch strategies: console lines and launches. *)
Definition launch_event (e : HostEvent) : bool :=
  match e with
  | ConsoleLog _ | ConsoleError _ | Launch _ => true
  | _ => false
  end.

(** The document an export command renders from the transformer's output
    [html] (extension.ts 161-162, 197-198). *)
Definition exported_document (E : HostEnv) (extensionPath : string) (isForPdf : bool)
    (html : string) : string :=
  document isForPdf (vendor_of (Some (assetBaseForExport E extensionPath)))
    (postprocess (libraries E) isForPdf html).

(** The default location offered by the save dialog of an export command. *)
Definition default_save_path (E : HostEnv) (ed : TextEditor) (extension : string)
  : string :=
  path_join E
    [ document_fsPath ed; "..";
      path_basename E (document_fileName ed)
        (Some (path_extname E (document_fileName ed))) ++ extension ].

(** The executables of the [puppeteer.launch] calls of a trace, in order. *)
Fixpoint launched (events : list HostEvent) : list (option string) :=
  match events with
  | [] => []
  | Launch options :: rest => executablePath options :: launched rest
  | _ :: rest => launched rest
  end.

(** How many times a trace closes a page. *)
Fixpoint page_closes (events : list HostEvent) : nat :=
  match events with
  | [] => 0
  | ClosePage _ :: rest => S (page_closes rest)
  | _ :: rest => page_closes rest
  end.

(** How many times a trace closes a browser. *)
Fixpoint browser_closes (events : list HostEvent) : nat :=
  match events with
  | [] => 0
  | CloseBrowser _ :: rest => S (browser_closes rest)
  | _ :: rest => browser_closes rest
  end.

(** The notifications a trace shows to the user: [true] for an information
    message, [false] for an error message. *)
Fixpoint notifications (events : list HostEvent) : list bool :=
  match events with
  | [] => []
  | ShowInformationMessage _ :: rest => true :: notifications rest
  | ShowErrorMessage _ :: rest => false :: notifications rest
  | _ :: rest => notifications rest
  end.

(** The files a trace writes: path and content. *)
Fixpoint written (events : list HostEvent) : list (string * string) :=
  match events with
  | [] => []
  | WriteFile fsPath content :: rest => (fsPath, content) :: written rest
  | _ :: rest => written rest
  end.

(** ** A small instance of the host environment *)
Module SampleHost.

Definition chromium : Browser := BrowserHandle 1.

Definition tab : PuppeteerPage := PageHandle 1.

(** A linux host without bundled Chromium, on which [/usr/bin/chromium]
    exists and starts; [defective] is a path that exists and does not
    start.  Nothing can be written under [/readonly/]. *)
Definition env (L : Libraries) (defective : string) : HostEnv :=
  {| process := {| platform := "linux";
                   PUPPETEER_EXECUTABLE_PATH := None;
                   CHROME_PATH := None |};
     fs_existsSync := fun p =>
       (p =? "/usr/bin/chromium")%string || (p =? defective)%string;
     fs_writeFileSync := fun p _ =>
       if includes p "/readonly/" then Abrupt "EACCES: permission denied"
       else Normal tt;
     path_join := String.concat "/";
     path_basename := fun p _ => p;
     path_extname := fun _ => EmptyString;
     puppeteer_launch := fun o =>
       match executablePath o with
       | Some p =>
           if (p =? defective)%string then Abrupt "spawn failed"
           else Normal chromium
       | None => Abrupt "Could not find Chromium"
       end;
     browser_connected := fun _ => true;
     browser_close := fun _ => Normal tt;
     browser_newPage := fun _ => Normal tab;
     page_setContent := fun _ _ => Normal tt;
     page_waitForMermaidReady := fun _ => Abrupt "Waiting failed: 10000ms exceeded";
     page_waitForNetworkIdle := fun _ => Normal tt;
     page_pdf := fun _ => Normal "%PDF-1.4";
     page_isClosed := fun _ => false;
     page_close := fun _ => Normal tt;
     window_showSaveDialog := fun p => Some p;
     webview_asWebviewUri := fun _ => Abrupt "webview disposed";
     libraries := L |}.

(** A host on which no browser can be started: the only path that exists is
    the defective one. *)
Definition barren : HostEnv :=
  {| process := {| platform := "linux";
                   PUPPETEER_EXECUTABLE_PATH := None;
                   CHROME_PATH := None |};
     fs_existsSync := fun p => (p =? "/usr/bin/google-chrome")%string;
     fs_writeFileSync := fun _ _ => Normal tt;
     path_join := String.concat "/";
     path_basename := fun p _ => p;
     path_extname := fun _ => EmptyString;
     puppeteer_launch := fun o =>
       match executablePath o with
       | Some _ => Abrupt "spawn failed"
       | None => Abrupt "Could not find Chromium"
       end;
     browser_connected := fun _ => true;
     browser_close := fun _ => Normal tt;
     browser_newPage := fun _ => Normal tab;
     page_setContent := fun _ _ => Normal tt;
     page_waitForMermaidReady := fun _ => Normal tt;
     page_waitForNetworkIdle := fun _ => Normal tt;
     page_pdf := fun _ => Normal "%PDF-1.4";
     page_isClosed := fun _ => false;
     page_close := fun _ => Normal tt;
     window_showSaveDialog := fun p => Some p;
     webview_asWebviewUri := fun _ => Abrupt "webview disposed";
     libraries := Sample.libraries |}.

(** The same host with a bundled Chromium that starts. *)
Definition with_bundled (E : HostEnv) : HostEnv :=
  {| process := process E;
     fs_existsSync := fs_existsSync E;
     fs_writeFileSync := fs_writeFileSync E;
     path_join := path_join E;
     path_basename := path_basename E;
     path_extname := path_extname E;
     puppeteer_launch := fun o =>
       match executablePath o with
       | Some _ => puppeteer_launch E o
       | None => Normal chromium
       end;
     browser_connected := browser_connected E;
     browser_close := browser_close E;
     browser_newPage := browser_newPage E;
     page_setContent := page_setContent E;
     page_waitForMermaidReady := page_waitForMermaidReady E;
     page_waitForNetworkIdle := page_waitForNetworkIdle E;
     page_pdf := page_pdf E;
     page_isClosed := page_isClosed E;
     page_close := page_close E;
     window_showSaveDialog := window_showSaveDialog E;
     webview_asWebviewUri := webview_asWebviewUri E;
     libraries := libraries E |}.

(** Libraries whose Markdown engine throws on every document. *)
Definition throwing_libraries : Libraries :=
  {| hljs := Sample.highlighter;
     marked_parse := fun _ _ => (Abrupt "Error: parse failure", []);
     purify := Sample.sanitizer;
     twemoji := Sample.emoji |}.

(** A host that has done nothing yet. *)
Definition idle : Host :=
  {| pipeline_world := Sample.fresh;
     browserInstance := None;
     browserInitPromise := None;
     panel_html := None;
     trace := [] |}.

Definition editor : TextEditor :=
  {| languageId := "markdown";
     document_text := "# Title";
     document_fileName := "notes.md";
     document_fsPath := "/home/me/notes.md" |}.

Definition readonly_editor : TextEditor :=
  {| languageId := "markdown";
     document_text := "# Title";
     document_fileName := "notes.md";
     document_fsPath := "/readonly/notes.md" |}.

End SampleHost.

(** * Properties *)

(** ** Strings *)

Lemma append_assoc (a b c : string) : (a ++ b) ++ c = a ++ b ++ c.
Proof.
  induction a as [|x a IH]; simpl; [reflexivity | now rewrite IH].
Qed.

Lemma append_nil_r (a : string) : a ++ EmptyString = a.
Proof.
  induction a as [|x a IH]; simpl; [reflexivity | now rewrite IH].
Qed.

Lemma startsWith_append (p s : string) : startsWith (p ++ s) p = true.
Proof.
  induction p as [|x p IH]; simpl.
  - destruct s; reflexivity.
  - now rewrite Ascii.eqb_refl, IH.
Qed.


Lemma includes_here (s p : string) : startsWith s p = true -> includes s p = true.
Proof.
  intros H; destruct s; simpl in *; rewrite H; reflexivity.
Qed.

Lemma includes_later (c : ascii) (s p : string) :
  includes s p = true -> includes (String c s) p = true.
Proof.
  intros H; simpl; rewrite H; apply orb_true_r.
Qed.




Lemma includes_skip (a s p : string) :
  includes s p = true -> includes (a ++ s) p = true.
Proof.
  intros H. induction a as [|x a IH]; [exact H|].
  apply includes_later, IH.
Qed.

Lemma strip_trailing_slash_cons (x : ascii) (t : string) :
  t <> EmptyString ->
  strip_trailing_slash (String x t) = String x (strip_trailing_slash t).
Proof.
  destruct t; [contradiction | reflexivity].
Qed.



(** ** The literals of the renderer *)

Lemma fallback_block_shell (lang code : string) :
  fallback_block lang code = plain_shell lang code.
Proof.
  unfold fallback_block, plain_shell, shell_open.
  replace fallback_q0 with shell_before_label by (vm_compute; reflexivity).
  replace fallback_q1 with (shell_after_label ++ ">") by (vm_compute; reflexivity).
  replace fallback_q2 with shell_close by (vm_compute; reflexivity).
  now rewrite !append_assoc.
Qed.

Lemma highlighted_block_shell (lang language content : string) :
  highlighted_block lang language content = highlighted_shell lang language content.
Proof.
  unfold highlighted_block, highlighted_shell, shell_open.
  replace highlighted_q0 with shell_before_label by (vm_compute; reflexivity).
  replace highlighted_q1
    with (shell_after_label ++ " class=" ++ dq ++ "hljs language-")
    by (vm_compute; reflexivity).
  replace highlighted_q2 with (dq ++ ">") by (vm_compute; reflexivity).
  replace highlighted_q3 with shell_close by (vm_compute; reflexivity).
  now rewrite !append_assoc.
Qed.


(** ** The code-block renderer *)



(** The diagram keyword short-circuits the renderer: the highlighter is not
    consulted and nothing is logged. *)
Lemma renderer_code_mermaid (hl : Hljs) (code : string) (language : option string)
    (c : Console) :
  resolve_lang language = "mermaid" ->
  renderer_code hl code language c = (Normal (mermaid_block code), c).
Proof.
  intros H; unfold renderer_code; rewrite H; reflexivity.
Qed.

(** The [try] branch, when the highlighter returns. *)
Lemma renderer_code_highlighted (hl : Hljs) (code : string) (language : option string)
    (c : Console) (h : string) :
  resolve_lang language <> "mermaid" ->
  highlight hl code (validLanguage hl (resolve_lang language)) = Normal h ->
  renderer_code hl code language c
  = (Normal (highlighted_block (resolve_lang language)
               (validLanguage hl (resolve_lang language)) h), c).
Proof.
  intros Hm Hh; unfold renderer_code.
  apply String.eqb_neq in Hm; rewrite Hm.
  unfold try_catch, bind, call, ret; rewrite Hh; reflexivity.
Qed.

(** The [catch] branch, when the highlighter throws. *)
Lemma renderer_code_caught (hl : Hljs) (code : string) (language : option string)
    (c : Console) (error : string) :
  resolve_lang language <> "mermaid" ->
  highlight hl code (validLanguage hl (resolve_lang language)) = Abrupt error ->
  renderer_code hl code language c
  = (Normal (fallback_block (resolve_lang language) code),
     (c ++ [ ("Error highlighting code: " ++ error)%string ])%list).
Proof.
  intros Hm Hh; unfold renderer_code.
  apply String.eqb_neq in Hm; rewrite Hm.
  unfold try_catch, bind, call, ret, console_error; rewrite Hh; reflexivity.
Qed.

(** The renderer returns a fragment on every input, whatever the highlighter
    does, and only ever appends to the console. *)
Lemma renderer_code_returns (hl : Hljs) (code : string) (language : option string)
    (c : Console) :
  exists html logged, renderer_code hl code language c = (Normal html, (c ++ logged)%list).
Proof.
  destruct (String.eqb_spec (resolve_lang language) "mermaid") as [Hm | Hm].
  - exists (mermaid_block code), []. rewrite app_nil_r.
    now apply renderer_code_mermaid.
  - destruct (highlight hl code (validLanguage hl (resolve_lang language))) as [h | e] eqn:Hh.
    + exists (highlighted_block (resolve_lang language)
                (validLanguage hl (resolve_lang language)) h), [].
      rewrite app_nil_r. now apply renderer_code_highlighted.
    + exists (fallback_block (resolve_lang language) code),
        [ "Error highlighting code: " ++ e ].
      now apply renderer_code_caught.
Qed.

(** C1 (amended).  When the highlighter throws on a block (one that is not a
    diagram block, for which the highlighter is not called), the renderer
    does not propagate the error: it logs it and returns the plain shell --
    the same opening, language label, copy button and closing as the
    highlighted block -- around the raw text exactly as received, with no
    escaping applied.  The renderer returns a fragment on every input, so a
    highlighting failure never makes it throw. *)
Theorem highlight_failure_is_contained
    (hl : Hljs) (code : string) (language : option string) (c : Console)
    (error : string) :
  resolve_lang language <> "mermaid" ->
  highlight hl code (validLanguage hl (resolve_lang language)) = Abrupt error ->
  renderer_code hl code language c
  = (Normal (plain_shell (resolve_lang language) code),
     (c ++ [ ("Error highlighting code: " ++ error)%string ])%list)
  /\ (forall content,
        highlighted_block (resolve_lang language)
          (validLanguage hl (resolve_lang language)) content
        = highlighted_shell (resolve_lang language)
            (validLanguage hl (resolve_lang language)) content)
  /\ (forall code' language' c',
        exists html logged,
          renderer_code hl code' language' c' = (Normal html, (c' ++ logged)%list)).
Proof.
  intros Hm Hh. split; [|split].
  - rewrite (renderer_code_caught hl code language c error Hm Hh).
    now rewrite fallback_block_shell.
  - intros content; apply highlighted_block_shell.
  - intros code' language' c'; apply renderer_code_returns.
Qed.

Lemma highlight_failure_is_contained_witness :
  resolve_lang (Some "python") <> "mermaid"
  /\ highlight Sample.failing_highlighter "1 < 2"
       (validLanguage Sample.failing_highlighter (resolve_lang (Some "python")))
     = Abrupt "Error: highlighter failure"
  /\ renderer_code Sample.failing_highlighter "1 < 2" (Some "python") []
     = (Normal (plain_shell "python" "1 < 2"),
        [ "Error highlighting code: Error: highlighter failure" ]).
Proof.
  split; [|split].
  - discriminate.
  - reflexivity.
  - apply (highlight_failure_is_contained Sample.failing_highlighter "1 < 2"
             (Some "python") [] "Error: highlighter failure").
    + discriminate.
    + reflexivity.
Defined.

(** C1 as stated fails: with a highlighter that throws, the code content of
    the fallback block for the text [1 < 2] is that text itself, not its
    HTML-escaped form [1 &lt; 2]. *)
Lemma escaped_fallback_counterexample :
  highlight Sample.failing_highlighter "1 < 2" "python" = Abrupt "Error: highlighter failure"
  /\ fst (renderer_code Sample.failing_highlighter "1 < 2" (Some "python") [])
     = Normal (plain_shell "python" "1 < 2")
  /\ html_escape "1 < 2" = "1 &lt; 2"
  /\ fst (renderer_code Sample.failing_highlighter "1 < 2" (Some "python") [])
     <> Normal (plain_shell "python" (html_escape "1 < 2")).
Proof.
  split; [reflexivity|].
  split; [vm_compute; reflexivity|].
  split; [reflexivity|].
  intros H; vm_compute in H; discriminate H.
Qed.

(** ** The pipeline *)

(** One call of [getHtmlForWebview], unfolded: the extension is registered
    and the options are set on the shared [marked] object, then the document
    is assembled from what [marked.parse] returns, or its error propagates. *)
Lemma getHtmlForWebview_run (L : Libraries) (md : string) (isForPdf : bool)
    (assetBase : option string) (w : World) :
  getHtmlForWebview L md isForPdf assetBase w
  = match marked_parse L (marked_at_parse L w) md with
    | (Normal html, c) =>
        (Normal (document isForPdf (vendor_of assetBase) (postprocess L isForPdf html)),
         {| marked := marked_at_parse L w; console := (console w ++ c)%list |})
    | (Abrupt e, c) =>
        (Abrupt e, {| marked := marked_at_parse L w; console := (console w ++ c)%list |})
    end.
Proof.
  unfold getHtmlForWebview, bind, marked_use, marked_setOptions, parse, ret,
    marked_at_parse, postprocess.
  cbn [marked console extensions defaults].
  destruct (marked_parse L _ md) as [[html | e] c]; reflexivity.
Qed.

Lemma getHtmlForWebview_result (L : Libraries) (md : string) (isForPdf : bool)
    (assetBase : option string) (w : World) :
  fst (getHtmlForWebview L md isForPdf assetBase w)
  = match fst (marked_parse L (marked_at_parse L w) md) with
    | Normal html =>
        Normal (document isForPdf (vendor_of assetBase) (postprocess L isForPdf html))
    | Abrupt e => Abrupt e
    end.
Proof.
  rewrite getHtmlForWebview_run.
  destruct (marked_parse L _ md) as [[html | e] c]; reflexivity.
Qed.

Lemma getHtmlForWebview_marked (L : Libraries) (md : string) (isForPdf : bool)
    (assetBase : option string) (w : World) :
  marked (snd (getHtmlForWebview L md isForPdf assetBase w)) = marked_at_parse L w.
Proof.
  rewrite getHtmlForWebview_run.
  destruct (marked_parse L _ md) as [[html | e] c]; reflexivity.
Qed.

(** Every call leaves one more registration of the extension behind. *)
Lemma after_calls_extensions (L : Libraries) (calls : list Call) (w : World) :
  extensions (marked (after_calls L calls w))
  = (extensions (marked w) ++ repeat markedKatex (length calls))%list.
Proof.
  revert w; induction calls as [|k calls IH]; intros w; simpl.
  - now rewrite app_nil_r.
  - rewrite IH, getHtmlForWebview_marked. unfold marked_at_parse; simpl.
    now rewrite <- app_assoc.
Qed.

(** A highlighter that throws on every block does not stop the pipeline: the
    document is returned, and the failure is on the console. *)
Example failing_highlighter_document :
  exists doc,
    getHtmlForWebview Sample.failing_libraries
      ("```python" ++ nl ++ "1 < 2" ++ nl ++ "```") false None Sample.fresh
    = (Normal doc,
       {| marked := marked_at_parse Sample.failing_libraries Sample.fresh;
          console := [ "Error highlighting code: Error: highlighter failure" ] |})
    /\ includes doc (plain_shell "python" "1 < 2") = true.
Proof.
  rewrite getHtmlForWebview_run.
  eexists; split; [reflexivity|].
  vm_compute; reflexivity.
Qed.

(** No call leaves the [marked] object as it found it. *)
Lemma call_changes_marked (L : Libraries) (md : string) (isForPdf : bool)
    (assetBase : option string) (w : World) :
  marked (snd (getHtmlForWebview L md isForPdf assetBase w)) <> marked w.
Proof.
  rewrite getHtmlForWebview_marked. intros E.
  apply (f_equal (fun m => length (extensions m))) in E.
  unfold marked_at_parse in E; cbn [extensions] in E.
  rewrite length_app in E; simpl in E. lia.
Qed.

(** ** Diagram blocks *)




(** ** Fenced blocks in the transformer's output *)

Lemma includes_refl (s : string) : includes s s = true.
Proof.
  apply includes_here.
  rewrite <- (append_nil_r s) at 1. apply startsWith_append.
Qed.

(** The sample parser hands its one block to the installed renderer. *)
Lemma sample_parser_renders (inst : MarkedInstance) (o : ExtendedMarkedOptions)
    (md html : string) (logged : list string) (code : string)
    (language : option string) :
  defaults inst = Some o ->
  Sample.parser inst md = (Normal html, logged) ->
  In (code, language) (Sample.code_tokens md) ->
  exists c block c',
    render_code (renderer o) code language c = (Normal block, c')
    /\ includes html block = true.
Proof.
  intros Ho Hparse Hin.
  unfold Sample.code_tokens in Hin.
  unfold Sample.parser in Hparse. rewrite Ho in Hparse.
  destruct (Sample.fence md) as [[tag text]|]; [|contradiction].
  destruct Hin as [Heq | []]. inversion Heq; subst.
  exists [], html, logged. split; [exact Hparse | apply includes_refl].
Qed.

Lemma sample_renders_code_blocks :
  renders_code_blocks Sample.libraries Sample.code_tokens.
Proof.
  intros inst o md html logged Ho Hparse code language Hin.
  exact (sample_parser_renders inst o md html logged code language Ho Hparse Hin).
Qed.







(** ** Markup the sanitizer has nothing to remove from *)










(** ** Highlighted blocks *)





(** ** State shared between calls *)

Lemma sample_registration_insensitive : registration_insensitive Sample.libraries.
Proof.
  intros exts exts' md _ _. reflexivity.
Qed.

(** C3 (amended).  The HTML returned by [getHtmlForWebview] is determined by
    its arguments and by the state of the process-wide [marked] object, on
    which every call registers the math extension once more and sets the
    options again.  After any sequence of earlier calls the registry holds
    one registration per call; a call with the same arguments returns the
    same result as in the original state provided [marked.parse] is
    insensitive to repeated registration. *)
Theorem same_arguments_same_document (L : Libraries) :
  registration_insensitive L ->
  forall (calls : list Call) (w : World) (md : string) (isForPdf : bool)
         (assetBase : option string),
    fst (getHtmlForWebview L md isForPdf assetBase (after_calls L calls w))
    = fst (getHtmlForWebview L md isForPdf assetBase w)
    /\ extensions (marked (after_calls L calls w))
       = (extensions (marked w) ++ repeat markedKatex (length calls))%list.
Proof.
  intros HL calls w md isForPdf assetBase. split.
  - rewrite !getHtmlForWebview_result. unfold marked_at_parse.
    rewrite (HL _ (extensions (marked w) ++ [markedKatex])%list md).
    + reflexivity.
    + intros E; apply app_eq_nil in E as [_ E]; discriminate.
    + intros E; apply app_eq_nil in E as [_ E]; discriminate.
  - apply after_calls_extensions.
Qed.

Lemma same_arguments_same_document_witness :
  registration_insensitive Sample.libraries
  /\ fst (getHtmlForWebview Sample.libraries "# Title" true None
            (after_calls Sample.libraries
               [ {| call_markdown := "x"; call_isForPdf := false; call_assetBase := None |} ]
               Sample.fresh))
     = fst (getHtmlForWebview Sample.libraries "# Title" true None Sample.fresh).
Proof.
  split.
  - exact sample_registration_insensitive.
  - apply (same_arguments_same_document Sample.libraries
             sample_registration_insensitive
             [ {| call_markdown := "x"; call_isForPdf := false; call_assetBase := None |} ]
             Sample.fresh "# Title" true None).
Defined.

(** C3 as stated fails: calls share state.  A call leaves the [marked]
    object changed, and the next call parses against a registry that holds
    the extension twice. *)
Lemma shared_marked_state_counterexample :
  extensions (marked Sample.fresh) = []
  /\ extensions (marked (snd (getHtmlForWebview Sample.libraries "# Title" false None
                               Sample.fresh)))
     = [ markedKatex ]
  /\ extensions (marked_at_parse Sample.libraries
                   (snd (getHtmlForWebview Sample.libraries "# Title" false None
                           Sample.fresh)))
     = [ markedKatex; markedKatex ]
  /\ marked (snd (getHtmlForWebview Sample.libraries "# Title" false None Sample.fresh))
     <> marked Sample.fresh.
Proof.
  split; [reflexivity|].
  split; [vm_compute; reflexivity|].
  split; [vm_compute; reflexivity|].
  intros H. apply (f_equal extensions) in H. vm_compute in H. discriminate H.
Qed.

(** ** Asset locators *)


(** C4.  With the asset base [file:///tmp/vendor/] the stylesheet links of
    the document head are the two bundled files under [file:///tmp/vendor],
    the slash of the base stripped; with no asset base they are the fixed
    remote locators.  Each of the three locators (highlight theme, math
    stylesheet, highlighter runtime) is the vendor prefix followed by its own
    path when there is a vendor prefix, and its own remote locator when there
    is none.  The head is what every returned document starts with. *)
Theorem asset_base_resolution :
  (forall isForPdf,
     stylesheet_links (document_head isForPdf (vendor_of (Some "file:///tmp/vendor/")))
     = [ "file:///tmp/vendor/highlight/styles/github-dark.min.css";
         "file:///tmp/vendor/katex/katex.min.css" ]
     /\ script_sources (document_head isForPdf (vendor_of (Some "file:///tmp/vendor/")))
        = [ "file:///tmp/vendor/highlight/highlight.min.js" ])
  /\ (forall isForPdf,
        stylesheet_links (document_head isForPdf (vendor_of None))
        = [ "https://cdnjs.cloudflare.com/ajax/libs/highlight.js/11.8.0/styles/github-dark.min.css";
            "https://cdn.jsdelivr.net/npm/katex@0.16.9/dist/katex.min. css" ]
        /\ script_sources (document_head isForPdf (vendor_of None))
           = [ "https://cdnjs.cloudflare.com/ajax/libs/highlight.js/11.8.0/highlight.min.js" ])
  /\ (forall (x : ascii) (v : string),
        highlight_css_href (Some (String x v))
        = String x v ++ "/highlight/styles/github-dark.min.css"
        /\ katex_css_href (Some (String x v)) = String x v ++ "/katex/katex.min.css"
        /\ highlight_js_src (Some (String x v))
           = String x v ++ "/highlight/highlight.min.js")
  /\ (highlight_css_href None
      = "https://cdnjs.cloudflare.com/ajax/libs/highlight.js/11.8.0/styles/github-dark.min.css"
      /\ katex_css_href None
         = "https://cdn.jsdelivr.net/npm/katex@0.16.9/dist/katex.min. css"
      /\ highlight_js_src None
         = "https://cdnjs.cloudflare.com/ajax/libs/highlight.js/11.8.0/highlight.min.js")
  /\ (forall (L : Libraries) (md : string) (isForPdf : bool)
             (assetBase : option string) (w : World),
        fst (getHtmlForWebview L md isForPdf assetBase w)
        = match fst (marked_parse L (marked_at_parse L w) md) with
          | Normal html =>
              Normal (document_head isForPdf (vendor_of assetBase)
                        ++ postprocess L isForPdf html ++ doc_q5)
          | Abrupt e => Abrupt e
          end).
Proof.
  split; [|split; [|split; [|split]]].
  - intros [|]; split; vm_compute; reflexivity.
  - intros [|]; split; vm_compute; reflexivity.
  - intros x v; repeat split.
  - repeat split.
  - intros L md isForPdf assetBase w. apply getHtmlForWebview_result.
Qed.


(** ** Emoji postprocessing and the PDF mode *)



(** *** The scan of the postprocessor *)

Lemma drop_zero (s : string) : drop 0 s = s.
Proof. now destruct s. Qed.

Lemma startsWith_drop (s g : string) :
  startsWith s g = true -> s = g ++ drop (String.length g) s.
Proof.
  revert s; induction g as [|a g IH]; intros s H.
  - symmetry; apply drop_zero.
  - destruct s as [|b s]; [discriminate|].
    simpl in H. apply andb_true_iff in H as [Hab H].
    apply Ascii.eqb_eq in Hab; subst b.
    simpl. f_equal. now apply IH.
Qed.

Lemma glyph_at_some (set : EmojiSet) (s glyph icon : string) :
  glyph_at set s = Some (glyph, icon) ->
  In (glyph, icon) set /\ truthy glyph = true /\ startsWith s glyph = true.
Proof.
  intros H. apply find_some in H as [Hin H].
  apply andb_true_iff in H as [Ht Hs]. now repeat split.
Qed.

Lemma scanned_text_cons (p : Piece) (pieces : list Piece) :
  scanned_text (p :: pieces) = piece_source p ++ scanned_text pieces.
Proof. reflexivity. Qed.

Lemma replaced_text_cons (o : TwemojiOptions) (p : Piece) (pieces : list Piece) :
  replaced_text o (p :: pieces) = piece_image o p ++ replaced_text o pieces.
Proof. reflexivity. Qed.

Lemma scan_glyph (set : EmojiSet) (c : ascii) (s glyph icon : string) :
  glyph_at set (String c s) = Some (glyph, icon) ->
  scan set 0 (String c s)
  = Replaced glyph icon :: scan set (String.length glyph - 1) s.
Proof.
  intros H. change (scan set 0 (String c s))
    with (match glyph_at set (String c s) with
          | Some (glyph, icon) =>
              Replaced glyph icon :: scan set (String.length glyph - 1) s
          | None => Kept c :: scan set 0 s
          end).
  now rewrite H.
Qed.

Lemma scan_kept (set : EmojiSet) (c : ascii) (s : string) :
  glyph_at set (String c s) = None ->
  scan set 0 (String c s) = Kept c :: scan set 0 s.
Proof.
  intros H. change (scan set 0 (String c s))
    with (match glyph_at set (String c s) with
          | Some (glyph, icon) =>
              Replaced glyph icon :: scan set (String.length glyph - 1) s
          | None => Kept c :: scan set 0 s
          end).
  now rewrite H.
Qed.

(** The scan loses nothing of the text. *)
Lemma scanned_text_scan (set : EmojiSet) (s : string) (skip : nat) :
  scanned_text (scan set skip s) = drop skip s.
Proof.
  revert skip; induction s as [|c s IH]; intros skip.
  - now destruct skip.
  - destruct skip as [|k]; [|exact (IH k)].
    destruct (glyph_at set (String c s)) as [[glyph icon]|] eqn:E.
    + rewrite (scan_glyph _ _ _ _ _ E), scanned_text_cons, IH.
      destruct (glyph_at_some _ _ _ _ E) as (_ & Ht & Hs).
      destruct glyph as [|a glyph]; [discriminate|].
      cbn [piece_source String.length]. rewrite Nat.sub_1_r. cbn [Nat.pred].
      simpl in Hs. apply andb_true_iff in Hs as [Hac Hs].
      apply Ascii.eqb_eq in Hac; subst a.
      simpl. f_equal. symmetry. now apply startsWith_drop.
    + rewrite (scan_kept _ _ _ E), scanned_text_cons, IH.
      reflexivity.
Qed.

(** A character the scan keeps does not begin a glyph of the set. *)
Lemma kept_begins_no_glyph (set : EmojiSet) (s : string) (skip : nat)
    (before : list Piece) (c : ascii) (after : list Piece) :
  scan set skip s = (before ++ Kept c :: after)%list ->
  glyph_at set (scanned_text (Kept c :: after)) = None.
Proof.
  revert skip before; induction s as [|x s IH]; intros skip before H.
  - destruct skip, before; discriminate.
  - destruct skip as [|k]; [|exact (IH k before H)].
    destruct (glyph_at set (String x s)) as [[glyph icon]|] eqn:E.
    + rewrite (scan_glyph _ _ _ _ _ E) in H.
      destruct before as [|p before]; [discriminate|].
      inversion H; subst. eapply IH; eassumption.
    + rewrite (scan_kept _ _ _ E) in H.
      destruct before as [|p before].
      * inversion H; subst.
        rewrite scanned_text_cons, scanned_text_scan, drop_zero. exact E.
      * inversion H; subst. eapply IH; eassumption.
Qed.

(** What the scan replaces is a glyph of the set, standing where the scan
    found it. *)
Lemma replaced_is_a_glyph (set : EmojiSet) (s : string) (skip : nat)
    (before : list Piece) (glyph icon : string) (after : list Piece) :
  scan set skip s = (before ++ Replaced glyph icon :: after)%list ->
  In (glyph, icon) set /\ truthy glyph = true.
Proof.
  revert skip before; induction s as [|x s IH]; intros skip before H.
  - destruct skip, before; discriminate.
  - destruct skip as [|k]; [|exact (IH k before H)].
    destruct (glyph_at set (String x s)) as [[g i]|] eqn:E.
    + rewrite (scan_glyph _ _ _ _ _ E) in H.
      destruct before as [|p before].
      * inversion H; subst.
        destruct (glyph_at_some _ _ _ _ E) as (Hin & Ht & _). now split.
      * inversion H; subst. eapply IH; eassumption.
    + rewrite (scan_kept _ _ _ E) in H.
      destruct before as [|p before]; [discriminate|].
      inversion H; subst. eapply IH; eassumption.
Qed.

Lemma glyph_at_none (set : EmojiSet) (s : string) :
  existsb (fun e => truthy (fst e) && includes s (fst e)) set = false ->
  glyph_at set s = None.
Proof.
  unfold glyph_at. induction set as [|e set IH]; intros H; [reflexivity|].
  cbn [existsb] in H. apply orb_false_iff in H as [He H].
  cbn [find]. rewrite (IH H).
  destruct (truthy (fst e)); [|reflexivity].
  cbn [andb] in *.
  destruct (startsWith s (fst e)) eqn:Es; [|reflexivity].
  now rewrite (includes_here _ _ Es) in He.
Qed.

Lemma no_glyph_later (set : EmojiSet) (c : ascii) (s : string) :
  existsb (fun e => truthy (fst e) && includes (String c s) (fst e)) set = false ->
  existsb (fun e => truthy (fst e) && includes s (fst e)) set = false.
Proof.
  induction set as [|e set IH]; intros H; [reflexivity|].
  cbn [existsb] in H. apply orb_false_iff in H as [He H].
  cbn [existsb]. rewrite (IH H), orb_false_r.
  destruct (truthy (fst e)); [|reflexivity].
  cbn [andb] in *.
  destruct (includes s (fst e)) eqn:Es; [|reflexivity].
  now rewrite (includes_later c _ _ Es) in He.
Qed.

(** On a text that holds no glyph of the set the postprocessor changes
    nothing. *)
Lemma postprocessor_noop (set : EmojiSet) (o : TwemojiOptions) (s : string) :
  twemoji_test (postprocessor set) s = false ->
  twemoji_parse (postprocessor set) o s = s.
Proof.
  cbn [twemoji_test twemoji_parse postprocessor].
  induction s as [|c s IH]; intros H; [reflexivity|].
  rewrite (scan_kept _ _ _ (glyph_at_none _ _ H)), replaced_text_cons.
  cbn [piece_image]. simpl. f_equal.
  apply IH. now apply no_glyph_later in H.
Qed.

(** The postprocessor of the specification meets the contract the
    statements about [twemoji] assume. *)
Lemma postprocessor_noop_without_emoji (set : EmojiSet) :
  noop_without_emoji (postprocessor set).
Proof.
  intros o s H. now apply postprocessor_noop.
Qed.

(** C5.  The emoji postprocessor runs exactly when [isForPdf] is true.  For
    [isForPdf = false] the body of the document is the sanitized fragment as
    it is, whatever the postprocessor would do to it.  For [isForPdf = true]
    the body is the sanitized fragment scanned from left to right with every
    glyph of the image set replaced: the scan loses nothing of the fragment,
    no character it keeps begins a glyph, what it replaces is a glyph of the
    set, and each replaced glyph is written as the image reference with the
    fixed remote base, the folder [svg] and the extension [.svg].  On a
    fragment that holds no glyph the body is the fragment itself. *)
Theorem emoji_postprocessing_only_for_pdf
    (L : Libraries) (set : EmojiSet) (w : World) (md : string)
    (assetBase : option string) (html : string) (logged : list string) :
  marked_parse L (marked_at_parse L w) md = (Normal html, logged) ->
  (forall T : Twemoji,
     fst (getHtmlForWebview (with_twemoji L T) md false assetBase w)
     = Normal (document false (vendor_of assetBase)
                 (sanitize (purify L) sanitize_config html)))
  /\ fst (getHtmlForWebview (with_twemoji L (postprocessor set)) md true assetBase w)
     = Normal (document true (vendor_of assetBase)
                 (replaced_text twemoji_options
                    (scan set 0 (sanitize (purify L) sanitize_config html))))
  /\ scanned_text (scan set 0 (sanitize (purify L) sanitize_config html))
     = sanitize (purify L) sanitize_config html
  /\ (forall before c after,
        scan set 0 (sanitize (purify L) sanitize_config html)
        = (before ++ Kept c :: after)%list ->
        glyph_at set (scanned_text (Kept c :: after)) = None)
  /\ (forall before glyph icon after,
        scan set 0 (sanitize (purify L) sanitize_config html)
        = (before ++ Replaced glyph icon :: after)%list ->
        In (glyph, icon) set
        /\ piece_image twemoji_options (Replaced glyph icon)
           = "<img class=" ++ dq ++ "emoji" ++ dq ++ " draggable=" ++ dq ++ "false" ++ dq
               ++ " alt=" ++ dq ++ glyph ++ dq
               ++ " src=" ++ dq
               ++ "https://cdnjs.cloudflare.com/ajax/libs/twemoji/14.0.2/svg/"
               ++ icon ++ ".svg" ++ dq ++ "/>")
  /\ (twemoji_test (postprocessor set) (sanitize (purify L) sanitize_config html) = false ->
      replaced_text twemoji_options
        (scan set 0 (sanitize (purify L) sanitize_config html))
      = sanitize (purify L) sanitize_config html).
Proof.
  intros Hparse.
  split; [|split; [|split; [|split; [|split]]]].
  - intros T. rewrite getHtmlForWebview_result.
    change (marked_parse (with_twemoji L T) (marked_at_parse (with_twemoji L T) w) md)
      with (marked_parse L (marked_at_parse L w) md).
    rewrite Hparse. reflexivity.
  - rewrite getHtmlForWebview_result.
    change (marked_parse (with_twemoji L (postprocessor set))
              (marked_at_parse (with_twemoji L (postprocessor set)) w) md)
      with (marked_parse L (marked_at_parse L w) md).
    rewrite Hparse. reflexivity.
  - rewrite scanned_text_scan. apply drop_zero.
  - intros before c after H. exact (kept_begins_no_glyph _ _ _ _ _ _ H).
  - intros before glyph icon after H.
    destruct (replaced_is_a_glyph _ _ _ _ _ _ _ H) as [Hin _].
    split; [exact Hin | reflexivity].
  - intros H. exact (postprocessor_noop set twemoji_options _ H).
Qed.

Lemma emoji_postprocessing_only_for_pdf_witness :
  marked_parse Sample.libraries (marked_at_parse Sample.libraries Sample.fresh)
    "done ✅"
  = (Normal ("<p>done ✅</p>" ++ nl), [])
  /\ fst (getHtmlForWebview (with_twemoji Sample.libraries (postprocessor Sample.emoji_set))
            "done ✅" true None Sample.fresh)
     = Normal (document true None
                 ("<p>done "
                    ++ image_reference twemoji_options "✅" "2705"
                    ++ "</p>" ++ nl))
  /\ fst (getHtmlForWebview (with_twemoji Sample.libraries (postprocessor Sample.emoji_set))
            "done ✅" false None Sample.fresh)
     = Normal (document false None ("<p>done ✅</p>" ++ nl)).
Proof.
  split; [vm_compute; reflexivity|].
  destruct (emoji_postprocessing_only_for_pdf Sample.libraries Sample.emoji_set
              Sample.fresh "done ✅" None ("<p>done ✅</p>" ++ nl) [])
    as (Hpreview & Hpdf & _).
  - vm_compute; reflexivity.
  - split.
    + rewrite Hpdf. vm_compute; reflexivity.
    + rewrite (Hpreview (postprocessor Sample.emoji_set)). vm_compute; reflexivity.
Defined.





(** ** The completion signal *)

(** The script of the template is the text of [bootstrap_module]. *)
Lemma bootstrap_script_program :
  mermaid_bootstrap_script = print_module bootstrap_module.
Proof. vm_compute; reflexivity. Qed.

(** C8 (amended).  Every assembled document embeds the bootstrap script, and
    the script is the text of the program [bootstrap_module].  Evaluating the
    module registers one listener for the window's [load] event.  On load,
    when [mermaid.run] resolves (no diagram to render, or every diagram
    rendered) the listener writes [true] to [window.mermaidReady] once and
    logs nothing; when it rejects (a diagram failed to render) the handler
    logs the error and writes [true] to the flag once.  In both cases the
    listener runs to its end without throwing, nothing else writes the flag,
    and the flag is [true] afterwards.  The flag is written by a run that
    settles only: while [mermaid.run] does not settle the listener stays
    suspended at its [await], and when the import of the runtime fails the
    module is not evaluated; in neither case is the flag written. *)
Theorem completion_flag_set_once :
  mermaid_bootstrap_script = print_module bootstrap_module
  /\ (forall isForPdf vendor htmlContent,
        includes (document isForPdf vendor htmlContent)
          (print_module bootstrap_module) = true)
  /\ List.length (load_listeners (evaluate_module ModuleLoads bootstrap_module)) = 1
  /\ (fst (document_load bootstrap_module ModuleLoads Resolves) = [ Continues ]
      /\ assignments "mermaidReady"
           (snd (document_load bootstrap_module ModuleLoads Resolves)) = 1
      /\ mermaidReady (snd (document_load bootstrap_module ModuleLoads Resolves))
         = Some (LitBool true)
      /\ page_errors (snd (document_load bootstrap_module ModuleLoads Resolves)) = [])
  /\ (forall error,
        fst (document_load bootstrap_module ModuleLoads (Rejects error)) = [ Continues ]
        /\ assignments "mermaidReady"
             (snd (document_load bootstrap_module ModuleLoads (Rejects error))) = 1
        /\ mermaidReady (snd (document_load bootstrap_module ModuleLoads (Rejects error)))
           = Some (LitBool true)
        /\ page_errors (snd (document_load bootstrap_module ModuleLoads (Rejects error)))
           = [ ("Mermaid rendering error:", error) ])
  /\ (fst (document_load bootstrap_module ModuleLoads NeverSettles) = [ Suspends ]
      /\ assignments "mermaidReady"
           (snd (document_load bootstrap_module ModuleLoads NeverSettles)) = 0)
  /\ (forall run,
        assignments "mermaidReady"
          (snd (document_load bootstrap_module ImportFails run)) = 0).
Proof.
  split; [exact bootstrap_script_program|].
  split; [|split; [|split; [|split; [|split]]]].
  - intros isForPdf vendor htmlContent.
    rewrite <- bootstrap_script_program.
    unfold document, document_head. rewrite !append_assoc.
    do 5 apply includes_skip.
    apply includes_here, startsWith_append.
  - reflexivity.
  - repeat split; vm_compute; reflexivity.
  - intros error. repeat split; reflexivity.
  - split; vm_compute; reflexivity.
  - intros run. reflexivity.
Qed.

(** C8 as stated fails for a document load in which the import of the
    diagram runtime fails, whether or not the document holds a diagram: the
    script of every document, whatever the asset base, imports the runtime
    from the remote locator; a module whose import fails is not evaluated, so
    no listener is registered and the flag is never written. *)
Lemma failed_import_counterexample :
  includes (document true (Some "file:///tmp/vendor") EmptyString)
    "import mermaid from 'https://cdn.jsdelivr.net/npm/mermaid@10/dist/mermaid.esm.min.mjs';"
  = true
  /\ load_listeners (evaluate_module ImportFails bootstrap_module) = []
  /\ document_load bootstrap_module ImportFails Resolves = ([], [])
  /\ mermaidReady (snd (document_load bootstrap_module ImportFails Resolves)) = None
  /\ assignments "mermaidReady"
       (snd (document_load bootstrap_module ImportFails Resolves)) = 0.
Proof.
  repeat split; vm_compute; reflexivity.
Qed.

(** ** The sanitizer's allow-list *)

(** * Properties of the rest of the extension *)

(** ** Chrome executable discovery *)

Lemma indexOf_lower_bound (arr : list string) (p : string) :
  (-1 <= indexOf arr p)%Z.
Proof.
  induction arr as [|x arr IH]; simpl; [lia|].
  destruct (x =? p)%string; [lia|].
  destruct (indexOf arr p <? 0)%Z eqn:E; [lia|].
  apply Z.ltb_ge in E; lia.
Qed.

Lemma indexOf_found (arr : list string) (p : string) :
  In p arr -> (0 <= indexOf arr p)%Z.
Proof.
  induction arr as [|x arr IH]; intros H; [contradiction|]; simpl.
  destruct (String.eqb_spec x p) as [E | E]; [lia|].
  destruct H as [H | H]; [contradiction|].
  specialize (IH H).
  destruct (indexOf arr p <? 0)%Z eqn:F; [apply Z.ltb_lt in F; lia | lia].
Qed.

(** The element at position [length pre] is a first occurrence exactly when
    it does not occur before. *)
Lemma indexOf_at (pre : list string) (p : string) (l : list string) :
  indexOf (pre ++ p :: l) p = Z.of_nat (length pre) <-> ~ In p pre.
Proof.
  induction pre as [|x pre IH].
  - simpl. rewrite String.eqb_refl. split; [intros _ [] | reflexivity].
  - cbn [app length indexOf].
    destruct (String.eqb_spec x p) as [E | E].
    + subst x. split; [lia | intros H; exfalso; apply H; now left].
    + assert (Hin : In p (pre ++ p :: l)) by (apply in_or_app; right; now left).
      pose proof (indexOf_found _ _ Hin) as Hpos.
      destruct (indexOf (pre ++ p :: l) p <? 0)%Z eqn:F;
        [apply Z.ltb_lt in F; lia|].
      split.
      * intros H [Hx | Hp]; [contradiction|].
        apply IH; [lia | exact Hp].
      * intros H.
        assert (Hn : ~ In p pre) by (intros Hp; apply H; now right).
        apply IH in Hn. lia.
Qed.

(** What the filter keeps of a suffix [l] of the array [pre ++ l]: the
    elements of [l] that do not occur in [pre], each once. *)
Lemma first_occurrences_suffix (l pre : list string) :
  NoDup (filter_indexed (fun p idx => (indexOf (pre ++ l) p =? idx)%Z)
           (Z.of_nat (length pre)) l)
  /\ (forall q,
        In q (filter_indexed (fun p idx => (indexOf (pre ++ l) p =? idx)%Z)
                (Z.of_nat (length pre)) l)
        <-> In q l /\ ~ In q pre).
Proof.
  revert pre; induction l as [|p l IH]; intros pre.
  - simpl. split; [constructor | intros q; tauto].
  - cbn [filter_indexed].
    replace (pre ++ p :: l)%list with ((pre ++ [p]) ++ l)%list
      by (now rewrite <- app_assoc).
    replace (Z.of_nat (length pre) + 1)%Z with (Z.of_nat (length (pre ++ [p])))
      by (rewrite length_app; simpl; lia).
    destruct (IH (pre ++ [p])%list) as [Hnd Hin].
    assert (Hhead : (indexOf ((pre ++ [p]) ++ l) p =? Z.of_nat (length pre))%Z = true
                    <-> ~ In p pre).
    { rewrite Z.eqb_eq. rewrite <- app_assoc. apply indexOf_at. }
    destruct (indexOf ((pre ++ [p]) ++ l) p =? Z.of_nat (length pre))%Z eqn:E.
    + assert (Hp : ~ In p pre) by (now apply Hhead).
      split.
      * simpl. constructor; [|exact Hnd].
        intros H. apply Hin in H as [_ H]. apply H, in_or_app. right; now left.
      * intros q. simpl. rewrite Hin. split.
        -- intros [<- | [Hq Hn]]; [split; [now left | exact Hp]|].
           split; [now right|]. intros Hq'. apply Hn, in_or_app; now left.
        -- intros [[<- | Hq] Hn]; [now left|].
           destruct (String.eqb_spec p q) as [-> | Hne]; [now left|].
           right. split; [exact Hq|].
           intros H; apply in_app_or in H as [H | [H | []]]; [now apply Hn | now apply Hne].
    + assert (Hp : In p pre).
      { destruct (in_dec string_dec p pre) as [H | H]; [exact H|].
        apply Hhead in H; discriminate. }
      split; [exact Hnd|].
      intros q. simpl. rewrite Hin. split.
      * intros [Hq Hn]. split; [now right|].
        intros Hq'. apply Hn, in_or_app; now left.
      * intros [[<- | Hq] Hn]; [contradiction|].
        split; [exact Hq|].
        intros H; apply in_app_or in H as [H | [H | []]]; [now apply Hn|].
        subst q; contradiction.
Qed.

Lemma first_occurrences_NoDup (arr : list string) : NoDup (first_occurrences arr).
Proof.
  apply (first_occurrences_suffix arr []).
Qed.

Lemma first_occurrences_In (arr : list string) (q : string) :
  In q (first_occurrences arr) <-> In q arr.
Proof.
  destruct (first_occurrences_suffix arr []) as [_ H].
  unfold first_occurrences. simpl in H. rewrite H. tauto.
Qed.

(** An array without repetition passes the filter unchanged. *)
Lemma first_occurrences_suffix_id (l pre : list string) :
  NoDup (pre ++ l) ->
  filter_indexed (fun p idx => (indexOf (pre ++ l) p =? idx)%Z)
    (Z.of_nat (length pre)) l = l.
Proof.
  revert pre; induction l as [|p l IH]; intros pre Hnd; [reflexivity|].
  cbn [filter_indexed].
  assert (Hp : ~ In p pre).
  { intros H. apply NoDup_remove_2 in Hnd. apply Hnd, in_or_app; now left. }
  apply (indexOf_at pre p l) in Hp. rewrite Hp, Z.eqb_refl.
  replace (pre ++ p :: l)%list with ((pre ++ [p]) ++ l)%list
    by (now rewrite <- app_assoc).
  replace (Z.of_nat (length pre) + 1)%Z with (Z.of_nat (length (pre ++ [p])))
    by (rewrite length_app; simpl; lia).
  rewrite IH; [reflexivity|].
  now rewrite <- app_assoc.
Qed.

Lemma first_occurrences_id (arr : list string) :
  NoDup arr -> first_occurrences arr = arr.
Proof.
  intros H. apply (first_occurrences_suffix_id arr [] H).
Qed.

(** The head of the array is always kept, and kept first. *)
Lemma first_occurrences_head (p : string) (rest : list string) :
  exists tail, first_occurrences (p :: rest) = p :: tail /\ ~ In p tail.
Proof.
  pose proof (first_occurrences_NoDup (p :: rest)) as Hnd.
  unfold first_occurrences in *. cbn [filter_indexed] in *.
  assert (E : (indexOf (p :: rest) p =? 0)%Z = true)
    by (simpl; now rewrite String.eqb_refl).
  rewrite E in *. simpl in *.
  eexists; split; [reflexivity|].
  now inversion Hnd.
Qed.

Lemma platform_candidates_NoDup (platform : string) :
  NoDup (platform_candidates platform).
Proof.
  unfold platform_candidates.
  destruct (platform =? "linux")%string;
    [|destruct (platform =? "darwin")%string;
      [|destruct (platform =? "win32")%string]];
    repeat (constructor; [simpl; intuition discriminate|]); constructor.
Qed.

Lemma env_path_set_true (p : option string) :
  env_path_set p = true <-> exists s, p = Some s /\ s <> EmptyString.
Proof.
  destruct p as [[|c s] |]; simpl; split; try discriminate.
  - intros (s & E & H); inversion E; subst; contradiction.
  - intros _. eexists; split; [reflexivity | discriminate].
  - reflexivity.
  - intros (s & E & _); discriminate.
Qed.

Lemma envPaths_In (proc : Process) (q : string) :
  In q (envPaths proc)
  <-> (PUPPETEER_EXECUTABLE_PATH proc = Some q /\ q <> EmptyString)
      \/ (CHROME_PATH proc = Some q /\ q <> EmptyString).
Proof.
  unfold envPaths. cbn [flat_map]. rewrite app_nil_r, in_app_iff.
  assert (H : forall p,
             In q (match p with
                   | Some s => if env_path_set p then [ s ] else []
                   | None => []
                   end)
             <-> p = Some q /\ q <> EmptyString).
  { intros [[|c s] |]; simpl; split; try tauto.
    - intros [E H]; inversion E; subst; contradiction.
    - intros [<- | []]; split; [reflexivity | discriminate].
    - intros [E _]; inversion E; now left.
    - intros [E _]; discriminate. }
  now rewrite !H.
Qed.

Lemma envPaths_unset (proc : Process) :
  env_path_set (PUPPETEER_EXECUTABLE_PATH proc) = false ->
  env_path_set (CHROME_PATH proc) = false ->
  envPaths proc = [].
Proof.
  unfold envPaths; cbn [flat_map].
  destruct (PUPPETEER_EXECUTABLE_PATH proc) as [s1|], (CHROME_PATH proc) as [s2|];
    intros H1 H2; try rewrite H1; try rewrite H2; reflexivity.
Qed.

(** X1.  The list of candidates never holds the same path twice, whatever
    the platform and the environment. *)
Theorem chrome_candidates_no_duplicates (proc : Process) :
  NoDup (getChromeExecutableCandidates proc).
Proof.
  apply first_occurrences_NoDup.
Qed.

(** X2.  A path is a candidate exactly when it is the non-empty value of one
    of the two environment variables or one of the fixed paths of the
    platform: the filter loses no path and invents none. *)
Theorem chrome_candidates_members (proc : Process) (q : string) :
  In q (getChromeExecutableCandidates proc)
  <-> (PUPPETEER_EXECUTABLE_PATH proc = Some q /\ q <> EmptyString)
      \/ (CHROME_PATH proc = Some q /\ q <> EmptyString)
      \/ In q (platform_candidates (platform proc)).
Proof.
  unfold getChromeExecutableCandidates.
  rewrite first_occurrences_In, in_app_iff, envPaths_In. tauto.
Qed.

(** X3.  A non-empty [PUPPETEER_EXECUTABLE_PATH] is the first candidate, and
    it is listed once even when it is also the value of [CHROME_PATH] or one
    of the fixed paths. *)
Theorem puppeteer_path_takes_precedence (proc : Process) (p : string) :
  PUPPETEER_EXECUTABLE_PATH proc = Some p ->
  p <> EmptyString ->
  exists tail,
    getChromeExecutableCandidates proc = p :: tail /\ ~ In p tail.
Proof.
  intros Hp Hne.
  unfold getChromeExecutableCandidates, envPaths. cbn [flat_map].
  rewrite Hp.
  assert (Hs : env_path_set (Some p) = true)
    by (apply env_path_set_true; now exists p).
  rewrite Hs. cbn [app].
  apply first_occurrences_head.
Qed.

Lemma puppeteer_path_takes_precedence_witness :
  PUPPETEER_EXECUTABLE_PATH
    {| platform := "linux";
       PUPPETEER_EXECUTABLE_PATH := Some "/usr/bin/chromium";
       CHROME_PATH := Some "/usr/bin/chromium" |}
  = Some "/usr/bin/chromium"
  /\ "/usr/bin/chromium" <> EmptyString
  /\ exists tail,
       getChromeExecutableCandidates
         {| platform := "linux";
            PUPPETEER_EXECUTABLE_PATH := Some "/usr/bin/chromium";
            CHROME_PATH := Some "/usr/bin/chromium" |}
       = "/usr/bin/chromium" :: tail
       /\ ~ In "/usr/bin/chromium" tail.
Proof.
  split; [reflexivity|]. split; [discriminate|].
  apply (puppeteer_path_takes_precedence
           {| platform := "linux";
              PUPPETEER_EXECUTABLE_PATH := Some "/usr/bin/chromium";
              CHROME_PATH := Some "/usr/bin/chromium" |}
           "/usr/bin/chromium").
  - reflexivity.
  - discriminate.
Defined.

(** X4.  With both variables unset or empty the candidates are the fixed
    paths of the platform, in the order of the source; on a platform other
    than linux, darwin and win32 there is none. *)
Theorem chrome_candidates_without_overrides (proc : Process) :
  env_path_set (PUPPETEER_EXECUTABLE_PATH proc) = false ->
  env_path_set (CHROME_PATH proc) = false ->
  getChromeExecutableCandidates proc = platform_candidates (platform proc)
  /\ (platform proc <> "linux" -> platform proc <> "darwin" ->
      platform proc <> "win32" ->
      getChromeExecutableCandidates proc = []).
Proof.
  intros H1 H2.
  assert (E : getChromeExecutableCandidates proc = platform_candidates (platform proc)).
  { unfold getChromeExecutableCandidates.
    rewrite (envPaths_unset proc H1 H2). cbn [app].
    apply first_occurrences_id, platform_candidates_NoDup. }
  split; [exact E|].
  intros Hl Hd Hw. rewrite E. unfold platform_candidates.
  apply String.eqb_neq in Hl, Hd, Hw. now rewrite Hl, Hd, Hw.
Qed.

Lemma chrome_candidates_without_overrides_witness :
  env_path_set (Some EmptyString) = false
  /\ env_path_set None = false
  /\ getChromeExecutableCandidates
       {| platform := "darwin";
          PUPPETEER_EXECUTABLE_PATH := Some EmptyString;
          CHROME_PATH := None |}
     = darwin_candidates.
Proof.
  split; [reflexivity|]. split; [reflexivity|].
  apply (chrome_candidates_without_overrides
           {| platform := "darwin";
              PUPPETEER_EXECUTABLE_PATH := Some EmptyString;
              CHROME_PATH := None |}).
  - reflexivity.
  - reflexivity.
Defined.

Lemma first_occurrences_head2 (a b : string) (rest : list string) :
  a <> b ->
  exists tail,
    first_occurrences (a :: b :: rest) = a :: b :: tail
    /\ ~ In a tail /\ ~ In b tail.
Proof.
  intros Hab.
  pose proof (first_occurrences_NoDup (a :: b :: rest)) as Hnd.
  unfold first_occurrences in *. cbn [filter_indexed] in *.
  assert (Ea : (indexOf (a :: b :: rest) a =? 0)%Z = true)
    by (simpl; now rewrite String.eqb_refl).
  assert (Eb : (indexOf (a :: b :: rest) b =? 0 + 1)%Z = true).
  { simpl. apply String.eqb_neq in Hab. rewrite Hab, String.eqb_refl. reflexivity. }
  rewrite Ea, Eb in *. cbn [app] in *.
  eexists; split; [reflexivity|].
  inversion Hnd as [|? ? Ha Hnd']; subst.
  inversion Hnd' as [|? ? Hb _]; subst.
  split; [|exact Hb].
  intros H; apply Ha; now right.
Qed.

(** X5.  When both variables are set to different non-empty paths, the
    candidates start with [PUPPETEER_EXECUTABLE_PATH], then [CHROME_PATH],
    and neither comes again among the fixed paths that follow. *)
Theorem env_paths_come_first_in_order (proc : Process) (p c : string) :
  PUPPETEER_EXECUTABLE_PATH proc = Some p ->
  CHROME_PATH proc = Some c ->
  p <> EmptyString -> c <> EmptyString -> p <> c ->
  exists tail,
    getChromeExecutableCandidates proc = p :: c :: tail
    /\ ~ In p tail /\ ~ In c tail
    /\ (forall q, In q tail -> In q (platform_candidates (platform proc))).
Proof.
  intros Hp Hc Hpne Hcne Hpc.
  assert (E : envPaths proc = [ p; c ]).
  { unfold envPaths. cbn [flat_map]. rewrite Hp, Hc.
    assert (Hs1 : env_path_set (Some p) = true)
      by (apply env_path_set_true; now exists p).
    assert (Hs2 : env_path_set (Some c) = true)
      by (apply env_path_set_true; now exists c).
    now rewrite Hs1, Hs2. }
  pose proof (first_occurrences_In ([ p; c ] ++ platform_candidates (platform proc))) as Hin.
  unfold getChromeExecutableCandidates. rewrite E. cbn [app] in *.
  destruct (first_occurrences_head2 p c (platform_candidates (platform proc)) Hpc)
    as (tail & Et & Hp' & Hc').
  exists tail. rewrite Et in *. repeat split; try assumption.
  intros q Hq.
  assert (H : In q (p :: c :: tail)) by (right; now right).
  apply Hin in H as [<- | [<- | H]]; [contradiction | contradiction | exact H].
Qed.

Lemma env_paths_come_first_in_order_witness :
  "D:/chrome.exe" <> EmptyString
  /\ "C:/Program Files/Chromium/Application/chrome.exe" <> EmptyString
  /\ "D:/chrome.exe" <> "C:/Program Files/Chromium/Application/chrome.exe"
  /\ exists tail,
       getChromeExecutableCandidates
         {| platform := "win32";
            PUPPETEER_EXECUTABLE_PATH := Some "D:/chrome.exe";
            CHROME_PATH := Some "C:/Program Files/Chromium/Application/chrome.exe" |}
       = "D:/chrome.exe" :: "C:/Program Files/Chromium/Application/chrome.exe" :: tail
       /\ ~ In "D:/chrome.exe" tail
       /\ ~ In "C:/Program Files/Chromium/Application/chrome.exe" tail
       /\ (forall q, In q tail -> In q (platform_candidates "win32")).
Proof.
  split; [discriminate|]. split; [discriminate|]. split; [discriminate|].
  apply (env_paths_come_first_in_order
           {| platform := "win32";
              PUPPETEER_EXECUTABLE_PATH := Some "D:/chrome.exe";
              CHROME_PATH := Some "C:/Program Files/Chromium/Application/chrome.exe" |}
           "D:/chrome.exe" "C:/Program Files/Chromium/Application/chrome.exe").
  - reflexivity.
  - reflexivity.
  - discriminate.
  - discriminate.
  - discriminate.
Defined.

(** ** The launch strategies *)

Lemma after_events_nil (h : Host) : after_events h [] = h.
Proof.
  destruct h; unfold after_events; simpl. now rewrite app_nil_r.
Qed.

Lemma after_events_app (h : Host) (a b : list HostEvent) :
  after_events (after_events h a) b = after_events h (a ++ b).
Proof.
  unfold after_events; simpl. now rewrite app_assoc.
Qed.

Lemma launched_app (a b : list HostEvent) :
  launched (a ++ b) = (launched a ++ launched b)%list.
Proof.
  induction a as [|e a IH]; [reflexivity|].
  destruct e; simpl; rewrite ?IH; reflexivity.
Qed.

Section ExtensionFacts.

Variable E : HostEnv.

(** The three ways one iteration of the loop can go. *)
Lemma try_candidate_skipped (path : string) (lastError : option string) (h : Host) :
  fs_existsSync E path = false ->
  try_candidate E path lastError h
  = (Normal (Continue lastError),
     after_events h [ ConsoleLog ("Skipping non-existent path: " ++ path) ]).
Proof.
  intros Hex. unfold try_candidate. rewrite Hex. reflexivity.
Qed.

Lemma try_candidate_launched (path : string) (lastError : option string) (h : Host)
    (b : Browser) :
  fs_existsSync E path = true ->
  puppeteer_launch E (launch_options (Some path)) = Normal b ->
  try_candidate E path lastError h
  = (Normal (Returned b),
     after_events (with_browser h (Some b))
       [ ConsoleLog ("Attempting to launch browser at: " ++ path);
         Launch (launch_options (Some path));
         ConsoleLog ("Successfully launched browser at: " ++ path) ]).
Proof.
  intros Hex Hl. unfold try_candidate, launch_options in *. rewrite Hex.
  unfold try_catch, bind, launch, call, emit, set_browserInstance, ret,
    after_events, with_browser; cbn.
  rewrite Hl. cbn. now rewrite <- !app_assoc.
Qed.

Lemma try_candidate_failed (path : string) (lastError : option string) (h : Host)
    (m : string) :
  fs_existsSync E path = true ->
  puppeteer_launch E (launch_options (Some path)) = Abrupt m ->
  try_candidate E path lastError h
  = (Normal (Continue (Some m)),
     after_events h
       [ ConsoleLog ("Attempting to launch browser at: " ++ path);
         Launch (launch_options (Some path));
         ConsoleError [ "Failed to launch browser at " ++ path ++ ":"; m ] ]).
Proof.
  intros Hex Hl. unfold try_candidate, launch_options in *. rewrite Hex.
  unfold try_catch, bind, launch, call, emit, set_browserInstance, ret,
    after_events; cbn.
  rewrite Hl. cbn. now rewrite <- !app_assoc.
Qed.

(** What the loop over the candidates does, whatever the candidates: it
    never throws; it only adds events; the executables it starts are, in
    order, candidates that exist, none of them twice when no candidate is
    listed twice; it returns a browser that [puppeteer.launch] returned, and
    caches it; or it falls through with the message of a failed launch,
    leaving the cache alone. *)
Lemma try_candidates_spec (candidates : list string) :
  forall (lastError : option string) (h : Host),
  exists (r : Round) (added : list HostEvent) (paths : list string),
    try_candidates E candidates lastError h
    = (Normal r,
       after_events
         (match r with
          | Returned b => with_browser h (Some b)
          | Continue _ => h
          end) added)
    /\ launched added = map Some paths
    /\ (forall p, In p paths -> In p candidates /\ fs_existsSync E p = true)
    /\ (NoDup candidates -> NoDup paths)
    /\ match r with
       | Returned b =>
           exists p, In p paths
                     /\ puppeteer_launch E (launch_options (Some p)) = Normal b
       | Continue e =>
           e = lastError
           \/ exists p m, In p paths
                          /\ puppeteer_launch E (launch_options (Some p)) = Abrupt m
                          /\ e = Some m
       end.
Proof.
  induction candidates as [|path rest IH]; intros lastError h.
  - exists (Continue lastError), [], []. cbn [try_candidates ret].
    rewrite after_events_nil.
    split; [reflexivity|]. split; [reflexivity|].
    split; [intros p []|]. split; [intros _; constructor|]. now left.
  - cbn [try_candidates]. unfold bind.
    destruct (fs_existsSync E path) eqn:Hex.
    + destruct (puppeteer_launch E (launch_options (Some path))) as [b | m] eqn:Hl.
      * rewrite (try_candidate_launched path lastError h b Hex Hl).
        eexists (Returned b), _, [ path ].
        split; [reflexivity|]. split; [reflexivity|].
        split; [intros p [<- | []]; split; [now left | exact Hex]|].
        split; [intros _; repeat constructor; intros []|].
        exists path; split; [now left | exact Hl].
      * rewrite (try_candidate_failed path lastError h m Hex Hl).
        destruct (IH (Some m)
                    (after_events h
                       [ ConsoleLog ("Attempting to launch browser at: " ++ path);
                         Launch (launch_options (Some path));
                         ConsoleError [ "Failed to launch browser at " ++ path ++ ":"; m ] ]))
          as (r & added & paths & Hrun & Hl' & Hin & Hnd & Hr).
        rewrite Hrun.
        exists r, (app [ ConsoleLog ("Attempting to launch browser at: " ++ path);
                         Launch (launch_options (Some path));
                         ConsoleError [ "Failed to launch browser at " ++ path ++ ":"; m ] ]
                     added), (path :: paths).
        split.
        { f_equal. destruct r; unfold after_events, with_browser; simpl;
            now rewrite <- !app_assoc. }
        split; [rewrite launched_app, Hl'; reflexivity|].
        split.
        { intros p [<- | Hp]; [split; [now left | exact Hex]|].
          destruct (Hin p Hp); split; [now right | assumption]. }
        split.
        { intros Hc. inversion Hc as [|? ? Hnot Hrest]; subst.
          constructor; [|now apply Hnd].
          intros Hp. apply Hnot. now apply Hin. }
        destruct r as [b | e].
        -- destruct Hr as (p & Hp & Hb). exists p; split; [now right | exact Hb].
        -- destruct Hr as [-> | (p & m' & Hp & Hb & ->)].
           ++ right. exists path, m. split; [now left|]. split; [exact Hl | reflexivity].
           ++ right. exists p, m'. split; [now right|]. split; [exact Hb | reflexivity].
    + rewrite (try_candidate_skipped path lastError h Hex).
      destruct (IH lastError
                  (after_events h [ ConsoleLog ("Skipping non-existent path: " ++ path) ]))
        as (r & added & paths & Hrun & Hl' & Hin & Hnd & Hr).
      rewrite Hrun.
      exists r, (app [ ConsoleLog ("Skipping non-existent path: " ++ path) ] added), paths.
      split.
      { f_equal. destruct r; unfold after_events, with_browser; simpl;
          now rewrite <- !app_assoc. }
      split; [rewrite launched_app, Hl'; reflexivity|].
      split.
      { intros p Hp. destruct (Hin p Hp); split; [now right | assumption]. }
      split.
      { intros Hc. inversion Hc; subst. now apply Hnd. }
      exact Hr.
Qed.

Lemma try_bundled_launched (h : Host) (b : Browser) :
  puppeteer_launch E (launch_options None) = Normal b ->
  try_bundled E h
  = (Normal (Returned b),
     after_events (with_browser h (Some b))
       [ ConsoleLog "Attempting to launch bundled Chromium...";
         Launch (launch_options None);
         ConsoleLog "Successfully launched bundled Chromium" ]).
Proof.
  intros Hl. unfold try_bundled, launch_options in *.
  unfold try_catch, bind, launch, call, emit, set_browserInstance, ret,
    after_events, with_browser; cbn.
  rewrite Hl. cbn. now rewrite <- !app_assoc.
Qed.

Lemma try_bundled_failed (h : Host) (m : string) :
  puppeteer_launch E (launch_options None) = Abrupt m ->
  try_bundled E h
  = (Normal (Continue (Some m)),
     after_events h
       [ ConsoleLog "Attempting to launch bundled Chromium...";
         Launch (launch_options None);
         ConsoleError [ "Failed to launch bundled Chromium:"; m ] ]).
Proof.
  intros Hl. unfold try_bundled, launch_options in *.
  unfold try_catch, bind, launch, call, emit, set_browserInstance, ret,
    after_events; cbn.
  rewrite Hl. cbn. now rewrite <- !app_assoc.
Qed.

End ExtensionFacts.

(** One run of the launch strategies, whatever the environment. *)
Lemma launch_browser_spec (E : HostEnv) (h : Host) :
  exists (added : list HostEvent) (paths : list string),
    launched added = None :: map Some paths
    /\ (forall p, In p paths ->
          In p (getChromeExecutableCandidates (process E))
          /\ fs_existsSync E p = true)
    /\ NoDup paths
    /\ ((exists b o,
           launch_browser E h
           = (Normal b, after_events (with_browser h (Some b)) added)
           /\ puppeteer_launch E o = Normal b)
        \/ (exists m o,
              launch_browser E h
              = (Abrupt (launch_failure_message (Some m)), after_events h added)
              /\ puppeteer_launch E o = Abrupt m)).
Proof.
  unfold launch_browser, bind.
  destruct (puppeteer_launch E (launch_options None)) as [b | m] eqn:Hl.
  - rewrite (try_bundled_launched E h b Hl).
    exists [ ConsoleLog "Attempting to launch bundled Chromium...";
             Launch (launch_options None);
             ConsoleLog "Successfully launched bundled Chromium" ], [].
    split; [reflexivity|].
    split; [intros p []|]. split; [constructor|].
    left. exists b, (launch_options None). split; [reflexivity | exact Hl].
  - rewrite (try_bundled_failed E h m Hl).
    set (first := [ ConsoleLog "Attempting to launch bundled Chromium...";
                    Launch (launch_options None);
                    ConsoleError [ "Failed to launch bundled Chromium:"; m ] ]).
    destruct (try_candidates_spec E (getChromeExecutableCandidates (process E))
                (Some m) (after_events h first))
      as (r & added & paths & Hrun & Hl' & Hin & Hnd & Hr).
    rewrite Hrun.
    exists (first ++ added)%list, paths.
    split; [rewrite launched_app, Hl'; reflexivity|].
    split; [exact Hin|].
    split; [apply Hnd, first_occurrences_NoDup|].
    destruct r as [b | e].
    + left. destruct Hr as (p & _ & Hb).
      exists b, (launch_options (Some p)). split; [|exact Hb].
      unfold ret. f_equal. unfold after_events, with_browser; simpl.
      now rewrite <- !app_assoc.
    + right.
      assert (He : exists m' o, e = Some m' /\ puppeteer_launch E o = Abrupt m').
      { destruct Hr as [-> | (p & m' & _ & Hb & ->)].
        - exists m, (launch_options None); split; [reflexivity | exact Hl].
        - exists m', (launch_options (Some p)); split; [reflexivity | exact Hb]. }
      destruct He as (m' & o & -> & Ho).
      exists m', o. split; [|exact Ho].
      unfold throw. f_equal. apply after_events_app.
Qed.

(** X6.  When no browser can be started, the error thrown always carries
    the message of a launch that failed: the alternative message, for the
    case that no path was tried, is never used, because the bundled
    Chromium is always tried first. *)
Theorem launch_failure_reports_last_error (E : HostEnv) (h : Host) (e : string) :
  fst (launch_browser E h) = Abrupt e ->
  exists m o,
    puppeteer_launch E o = Abrupt m
    /\ e = "Failed to launch browser.  Last error: " ++ m
             ++ ". Please ensure Chrome or Chromium is installed. "
    /\ e <> "Failed to launch browser. No executable paths were tried.".
Proof.
  intros He.
  destruct (launch_browser_spec E h) as (added & paths & _ & _ & _ & [H | H]).
  - destruct H as (b & o & Hrun & _). rewrite Hrun in He. discriminate.
  - destruct H as (m & o & Hrun & Ho). rewrite Hrun in He. cbn [fst] in He.
    inversion He; subst e. exists m, o.
    split; [exact Ho|]. split; [reflexivity|].
    simpl. intros H. discriminate H.
Qed.

Lemma launch_failure_reports_last_error_witness :
  fst (launch_browser SampleHost.barren SampleHost.idle)
  = Abrupt ("Failed to launch browser.  Last error: spawn failed"
              ++ ". Please ensure Chrome or Chromium is installed. ")
  /\ exists m o,
       puppeteer_launch SampleHost.barren o = Abrupt m
       /\ "Failed to launch browser.  Last error: spawn failed. Please ensure Chrome or Chromium is installed. "
          = "Failed to launch browser.  Last error: " ++ m
              ++ ". Please ensure Chrome or Chromium is installed. ".
Proof.
  split; [vm_compute; reflexivity|].
  destruct (launch_failure_reports_last_error SampleHost.barren SampleHost.idle
              "Failed to launch browser.  Last error: spawn failed. Please ensure Chrome or Chromium is installed. ")
    as (m & o & Ho & Hm & _).
  - vm_compute; reflexivity.
  - exists m, o. split; [exact Ho | exact Hm].
Defined.

(** X7.  When the bundled Chromium starts, it is returned and cached at
    once: no candidate path is looked at, and the only events are the two
    log lines around the one launch. *)
Theorem bundled_launch_short_circuits (E : HostEnv) (h : Host) (b : Browser) :
  puppeteer_launch E (launch_options None) = Normal b ->
  launch_browser E h
  = (Normal b,
     after_events (with_browser h (Some b))
       [ ConsoleLog "Attempting to launch bundled Chromium...";
         Launch (launch_options None);
         ConsoleLog "Successfully launched bundled Chromium" ]).
Proof.
  intros Hl. unfold launch_browser, bind.
  rewrite (try_bundled_launched E h b Hl). reflexivity.
Qed.

(** X8.  The launch strategies start the bundled Chromium first and then
    only executables that are candidates and exist on disk, each of them at
    most once. *)
Theorem only_existing_candidates_are_launched (E : HostEnv) (h : Host) :
  exists (added : list HostEvent) (paths : list string),
    trace (snd (launch_browser E h)) = (trace h ++ added)%list
    /\ launched added = None :: map Some paths
    /\ NoDup paths
    /\ (forall p, In p paths ->
          In p (getChromeExecutableCandidates (process E))
          /\ fs_existsSync E p = true).
Proof.
  destruct (launch_browser_spec E h) as (added & paths & Hl & Hin & Hnd & H).
  exists added, paths.
  split; [|split; [exact Hl | split; [exact Hnd | exact Hin]]].
  destruct H as [(b & o & -> & _) | (m & o & -> & _)]; reflexivity.
Qed.

(** X9.  A successful run of the launch strategies caches exactly the
    browser it returns; a failed run leaves the cached browser as it was.
    Neither touches the rendering pipeline or the preview panel. *)
Theorem launch_caches_what_it_returns (E : HostEnv) (h : Host) :
  match fst (launch_browser E h) with
  | Normal b => browserInstance (snd (launch_browser E h)) = Some b
  | Abrupt _ => browserInstance (snd (launch_browser E h)) = browserInstance h
  end
  /\ pipeline_world (snd (launch_browser E h)) = pipeline_world h
  /\ panel_html (snd (launch_browser E h)) = panel_html h.
Proof.
  destruct (launch_browser_spec E h) as (added & paths & _ & _ & _ & H).
  destruct H as [(b & o & -> & _) | (m & o & -> & _)]; repeat split.
Qed.

(** ** Acquiring and releasing the browser *)

Lemma launch_browser_promise (E : HostEnv) (h : Host) :
  browserInitPromise (snd (launch_browser E h)) = browserInitPromise h.
Proof.
  destruct (launch_browser_spec E h) as (added & paths & _ & _ & _ & H).
  destruct H as [(b & o & -> & _) | (m & o & -> & _)]; reflexivity.
Qed.

(** With no usable cached browser and no launch pending, [initBrowser] is
    one run of the launch strategies. *)
Lemma initBrowser_fresh (E : HostEnv) (h : Host) :
  connected_instance E h = None ->
  browserInitPromise h = None ->
  initBrowser E h = launch_browser E h.
Proof.
  intros Hc Hp. unfold initBrowser. rewrite Hc, Hp.
  pose proof (launch_browser_promise E h) as Hq. rewrite Hp in Hq.
  destruct (launch_browser E h) as [r h1]. cbn [snd] in Hq.
  unfold bind, set_browserInitPromise, try_finally, call.
  destruct h1 as [w bi bp ph tr]. cbn in *. subst bp.
  destruct r; reflexivity.
Qed.

Lemma getBrowserInstance_initBrowser (E : HostEnv) (h : Host) :
  getBrowserInstance E h = initBrowser E h.
Proof.
  unfold getBrowserInstance, initBrowser.
  destruct (connected_instance E h); reflexivity.
Qed.

(** X10.  A failed [initBrowser] is not remembered: it leaves no pending
    promise and the cache unchanged, so the next call runs the launch
    strategies again. *)
Theorem failed_init_can_be_retried (E : HostEnv) (h : Host) (e : string) :
  browserInitPromise h = None ->
  fst (initBrowser E h) = Abrupt e ->
  browserInitPromise (snd (initBrowser E h)) = None
  /\ browserInstance (snd (initBrowser E h)) = browserInstance h
  /\ initBrowser E (snd (initBrowser E h)) = launch_browser E (snd (initBrowser E h)).
Proof.
  intros Hp He.
  assert (Hc : connected_instance E h = None).
  { destruct (connected_instance E h) as [b|] eqn:Hc; [|reflexivity].
    unfold initBrowser in He. rewrite Hc in He. discriminate. }
  rewrite (initBrowser_fresh E h Hc Hp) in *.
  pose proof (launch_browser_promise E h) as Hq.
  destruct (launch_browser_spec E h)
    as (added & paths & _ & _ & _ & [(b & o & Hrun & _) | (m & o & Hrun & _)]).
  - rewrite Hrun in He. discriminate.
  - rewrite Hrun in *. cbn [snd] in *.
    split; [now rewrite Hq|]. split; [reflexivity|].
    apply initBrowser_fresh.
    + unfold connected_instance in *. exact Hc.
    + now rewrite Hq.
Qed.

Lemma failed_init_can_be_retried_witness :
  browserInitPromise SampleHost.idle = None
  /\ fst (initBrowser SampleHost.barren SampleHost.idle)
     = Abrupt "Failed to launch browser.  Last error: spawn failed. Please ensure Chrome or Chromium is installed. "
  /\ browserInitPromise (snd (initBrowser SampleHost.barren SampleHost.idle)) = None.
Proof.
  split; [reflexivity|]. split; [vm_compute; reflexivity|].
  apply (failed_init_can_be_retried SampleHost.barren SampleHost.idle
           "Failed to launch browser.  Last error: spawn failed. Please ensure Chrome or Chromium is installed. ").
  - reflexivity.
  - vm_compute; reflexivity.
Defined.

Lemma browser_closes_app (a b : list HostEvent) :
  browser_closes (a ++ b) = browser_closes a + browser_closes b.
Proof.
  induction a as [|e a IH]; [reflexivity|].
  destruct e; simpl; rewrite ?IH; reflexivity.
Qed.

(** X11.  [cleanupBrowser] never throws, even when closing the browser
    fails; it closes the cached browser once, always leaves the cache empty,
    and running it again changes nothing. *)
Theorem cleanup_always_empties_the_cache (E : HostEnv) (h : Host) :
  exists (h' : Host) (added : list HostEvent),
    cleanupBrowser E h = (Normal tt, h')
    /\ browserInstance h' = None
    /\ trace h' = (trace h ++ added)%list
    /\ browser_closes added = match browserInstance h with Some _ => 1 | None => 0 end
    /\ pipeline_world h' = pipeline_world h
    /\ cleanupBrowser E h' = (Normal tt, h').
Proof.
  unfold cleanupBrowser at 1.
  destruct (browserInstance h) as [b|] eqn:Hb.
  - unfold try_finally, try_catch, bind, emit, call, set_browserInstance. cbn.
    destruct (browser_close E b) as [[] | m]; cbn;
      eexists _, _; (split; [reflexivity|]); cbn;
      (split; [reflexivity|]);
      (split; [rewrite <- app_assoc; reflexivity|]);
      (split; [reflexivity|]); (split; [reflexivity|]); reflexivity.
  - exists h, []. rewrite app_nil_r.
    repeat split; try assumption.
    unfold cleanupBrowser. now rewrite Hb.
Qed.

(** X12.  After [cleanupBrowser], the next [getBrowserInstance] goes through
    the launch strategies: the closed browser is never handed out from the
    cache, whatever it reports about its connection. *)
Theorem closed_browser_is_never_reused (E : HostEnv) (h : Host) :
  browserInitPromise h = None ->
  getBrowserInstance E (snd (cleanupBrowser E h))
  = launch_browser E (snd (cleanupBrowser E h)).
Proof.
  intros Hp.
  destruct (cleanupBrowser E h) as [r h'] eqn:Hrun.
  assert (Hfacts : browserInstance h' = None /\ browserInitPromise h' = None).
  { unfold cleanupBrowser in Hrun.
    destruct (browserInstance h) as [b|] eqn:Hb.
    - unfold try_finally, try_catch, bind, emit, call, set_browserInstance in Hrun.
      cbn in Hrun.
      destruct (browser_close E b) as [[] | m]; cbn in Hrun;
        inversion Hrun; subst; cbn; split; [reflexivity | exact Hp | reflexivity | exact Hp].
    - inversion Hrun; subst. split; assumption. }
  destruct Hfacts as [Hb' Hp']. cbn [snd].
  rewrite getBrowserInstance_initBrowser.
  apply initBrowser_fresh; [|exact Hp'].
  unfold connected_instance. now rewrite Hb'.
Qed.

Lemma closed_browser_is_never_reused_witness :
  browserInitPromise
    (with_browser SampleHost.idle (Some SampleHost.chromium)) = None
  /\ fst (getBrowserInstance (SampleHost.env Sample.libraries EmptyString)
            (with_browser SampleHost.idle (Some SampleHost.chromium)))
     = Normal SampleHost.chromium
  /\ getBrowserInstance (SampleHost.env Sample.libraries EmptyString)
       (snd (cleanupBrowser (SampleHost.env Sample.libraries EmptyString)
               (with_browser SampleHost.idle (Some SampleHost.chromium))))
     = launch_browser (SampleHost.env Sample.libraries EmptyString)
         (snd (cleanupBrowser (SampleHost.env Sample.libraries EmptyString)
                 (with_browser SampleHost.idle (Some SampleHost.chromium)))).
Proof.
  split; [reflexivity|]. split; [reflexivity|].
  apply (closed_browser_is_never_reused (SampleHost.env Sample.libraries EmptyString)
           (with_browser SampleHost.idle (Some SampleHost.chromium))).
  reflexivity.
Defined.

Lemma bundled_launch_short_circuits_witness :
  puppeteer_launch (SampleHost.with_bundled SampleHost.barren) (launch_options None)
  = Normal SampleHost.chromium
  /\ launched (trace (snd (launch_browser (SampleHost.with_bundled SampleHost.barren)
                             SampleHost.idle)))
     = [ None ].
Proof.
  split; [reflexivity|].
  rewrite (bundled_launch_short_circuits (SampleHost.with_bundled SampleHost.barren)
             SampleHost.idle SampleHost.chromium); reflexivity.
Defined.

(** ** The preview *)

(** Rendering inside the host: the document assembled from what
    [marked.parse] returns, or its error; only the pipeline's share of the
    host changes. *)
Lemma render_in_host (L : Libraries) (md : string) (isForPdf : bool)
    (assetBase : option string) (h : Host) :
  in_world (getHtmlForWebview L md isForPdf assetBase) h
  = (match fst (marked_parse L (marked_at_parse L (pipeline_world h)) md) with
     | Normal html =>
         Normal (document isForPdf (vendor_of assetBase) (postprocess L isForPdf html))
     | Abrupt e => Abrupt e
     end,
     with_world h
       {| marked := marked_at_parse L (pipeline_world h);
          console := (console (pipeline_world h)
                        ++ snd (marked_parse L (marked_at_parse L (pipeline_world h)) md))%list |}).
Proof.
  unfold in_world. rewrite getHtmlForWebview_run.
  destruct (marked_parse L _ md) as [[html | e] c]; reflexivity.
Qed.

(** The asset base [updateContent] computes (extension.ts 283-290). *)
Lemma updateContent_run (E : HostEnv) (md extensionPath : string) (h : Host) :
  updateContent E md extensionPath h
  = (html <- in_world
               (getHtmlForWebview (libraries E) md false
                  match webview_asWebviewUri E
                          (path_join E [ extensionPath; "assets"; "vendor" ]) with
                  | Normal uri => Some uri
                  | Abrupt _ => None
                  end) ;;
     set_panel_html html)%js h.
Proof.
  unfold updateContent, bind at 1, try_catch, call, ret.
  destruct (webview_asWebviewUri E _); reflexivity.
Qed.

(** X13.  When the webview cannot provide a locator for the bundled assets,
    the preview is rendered as with no asset base: the panel receives the
    document whose stylesheets are the remote ones. *)
Theorem preview_falls_back_to_remote_assets
    (E : HostEnv) (md extensionPath : string) (h : Host) (e html : string)
    (logged : list string) :
  webview_asWebviewUri E (path_join E [ extensionPath; "assets"; "vendor" ]) = Abrupt e ->
  marked_parse (libraries E) (marked_at_parse (libraries E) (pipeline_world h)) md
  = (Normal html, logged) ->
  fst (updateContent E md extensionPath h) = Normal tt
  /\ panel_html (snd (updateContent E md extensionPath h))
     = Some (document false None (sanitize (purify (libraries E)) sanitize_config html))
  /\ stylesheet_links (document_head false None)
     = [ "https://cdnjs.cloudflare.com/ajax/libs/highlight.js/11.8.0/styles/github-dark.min.css";
         "https://cdn.jsdelivr.net/npm/katex@0.16.9/dist/katex.min. css" ].
Proof.
  intros Huri Hparse.
  rewrite updateContent_run, Huri. unfold bind.
  rewrite render_in_host, Hparse. cbn [fst snd].
  split; [reflexivity|]. split; [reflexivity|].
  vm_compute; reflexivity.
Qed.

Lemma preview_falls_back_to_remote_assets_witness :
  webview_asWebviewUri (SampleHost.env Sample.libraries EmptyString)
    (path_join (SampleHost.env Sample.libraries EmptyString) [ "/ext"; "assets"; "vendor" ])
  = Abrupt "webview disposed"
  /\ marked_parse Sample.libraries
       (marked_at_parse Sample.libraries (pipeline_world SampleHost.idle)) "# Title"
     = (Normal ("<p># Title</p>" ++ nl), [])
  /\ panel_html (snd (updateContent (SampleHost.env Sample.libraries EmptyString)
                        "# Title" "/ext" SampleHost.idle))
     = Some (document false None ("<p># Title</p>" ++ nl)).
Proof.
  split; [reflexivity|]. split; [vm_compute; reflexivity|].
  destruct (preview_falls_back_to_remote_assets
              (SampleHost.env Sample.libraries EmptyString) "# Title" "/ext"
              SampleHost.idle "webview disposed" ("<p># Title</p>" ++ nl) [])
    as (_ & Hpanel & _).
  - reflexivity.
  - vm_compute; reflexivity.
  - rewrite Hpanel. reflexivity.
Defined.

(** X14.  When the Markdown engine throws, [updateContent] throws the same
    error and the panel keeps the content it had; no event is recorded. *)
Theorem preview_keeps_content_when_rendering_fails
    (E : HostEnv) (md extensionPath : string) (h : Host) (e : string)
    (logged : list string) :
  marked_parse (libraries E) (marked_at_parse (libraries E) (pipeline_world h)) md
  = (Abrupt e, logged) ->
  fst (updateContent E md extensionPath h) = Abrupt e
  /\ panel_html (snd (updateContent E md extensionPath h)) = panel_html h
  /\ trace (snd (updateContent E md extensionPath h)) = trace h.
Proof.
  intros Hparse.
  rewrite updateContent_run. unfold bind.
  rewrite render_in_host, Hparse. cbn [fst snd].
  repeat split.
Qed.

Lemma preview_keeps_content_when_rendering_fails_witness :
  marked_parse SampleHost.throwing_libraries
    (marked_at_parse SampleHost.throwing_libraries (pipeline_world SampleHost.idle))
    "# Title"
  = (Abrupt "Error: parse failure", [])
  /\ fst (updateContent (SampleHost.env SampleHost.throwing_libraries EmptyString)
            "# Title" "/ext" SampleHost.idle)
     = Abrupt "Error: parse failure".
Proof.
  split; [reflexivity|].
  apply (preview_keeps_content_when_rendering_fails
           (SampleHost.env SampleHost.throwing_libraries EmptyString)
           "# Title" "/ext" SampleHost.idle "Error: parse failure" []).
  reflexivity.
Defined.

(** ** The export commands *)

Lemma notifications_app (a b : list HostEvent) :
  notifications (a ++ b) = (notifications a ++ notifications b)%list.
Proof.
  induction a as [|e a IH]; [reflexivity|].
  destruct e; simpl; rewrite ?IH; reflexivity.
Qed.

Lemma written_app (a b : list HostEvent) :
  written (a ++ b) = (written a ++ written b)%list.
Proof.
  induction a as [|e a IH]; [reflexivity|].
  destruct e; simpl; rewrite ?IH; reflexivity.
Qed.

Lemma page_closes_app (a b : list HostEvent) :
  page_closes (a ++ b) = page_closes a + page_closes b.
Proof.
  induction a as [|e a IH]; [reflexivity|].
  destruct e; simpl; rewrite ?IH; reflexivity.
Qed.

(** Launch events are no notification, no write and no close. *)
Lemma launch_events_are_silent (events : list HostEvent) :
  forallb launch_event events = true ->
  notifications events = [] /\ written events = []
  /\ page_closes events = 0 /\ browser_closes events = 0.
Proof.
  induction events as [|e events IH]; intros H; [repeat split|].
  simpl in H. apply andb_true_iff in H as [He H].
  destruct e; try discriminate; simpl; now apply IH.
Qed.

Lemma try_candidates_events (E : HostEnv) (candidates : list string) :
  forall (lastError : option string) (h : Host),
  exists added,
    trace (snd (try_candidates E candidates lastError h)) = (trace h ++ added)%list
    /\ forallb launch_event added = true.
Proof.
  induction candidates as [|path rest IH]; intros lastError h.
  - exists []. simpl. now rewrite app_nil_r.
  - cbn [try_candidates]. unfold bind.
    destruct (fs_existsSync E path) eqn:Hex.
    + destruct (puppeteer_launch E (launch_options (Some path))) as [b | m] eqn:Hl.
      * rewrite (try_candidate_launched E path lastError h b Hex Hl).
        eexists; split; [reflexivity | reflexivity].
      * rewrite (try_candidate_failed E path lastError h m Hex Hl).
        match goal with
        | |- context [try_candidates E rest (Some m) ?h1] =>
            destruct (IH (Some m) h1) as (added & Ht & Hf)
        end.
        rewrite Ht. cbn [trace after_events].
        eexists; split; [rewrite <- app_assoc; reflexivity|].
        rewrite forallb_app, Hf. reflexivity.
    + rewrite (try_candidate_skipped E path lastError h Hex).
      match goal with
      | |- context [try_candidates E rest lastError ?h1] =>
          destruct (IH lastError h1) as (added & Ht & Hf)
      end.
      rewrite Ht. cbn [trace after_events].
      eexists; split; [rewrite <- app_assoc; reflexivity|].
      rewrite forallb_app, Hf. reflexivity.
Qed.

Lemma launch_browser_events (E : HostEnv) (h : Host) :
  exists added,
    trace (snd (launch_browser E h)) = (trace h ++ added)%list
    /\ forallb launch_event added = true.
Proof.
  unfold launch_browser, bind.
  destruct (puppeteer_launch E (launch_options None)) as [b | m] eqn:Hl.
  - rewrite (try_bundled_launched E h b Hl).
    eexists; split; [reflexivity | reflexivity].
  - rewrite (try_bundled_failed E h m Hl).
    match goal with
    | |- context [try_candidates E ?c (Some m) ?h1] =>
        destruct (try_candidates_events E c (Some m) h1) as (added & Ht & Hf);
        destruct (try_candidates E c (Some m) h1) as [[[b | e] | e] h2]
    end; cbn [snd] in Ht; cbn [snd ret throw]; rewrite Ht; cbn [trace after_events];
      (eexists; split; [rewrite <- app_assoc; reflexivity|]);
      rewrite forallb_app, Hf; reflexivity.
Qed.

(** Acquiring the browser adds launch events only. *)
Lemma getBrowserInstance_events (E : HostEnv) (h : Host) :
  exists added,
    trace (snd (getBrowserInstance E h)) = (trace h ++ added)%list
    /\ forallb launch_event added = true.
Proof.
  rewrite getBrowserInstance_initBrowser. unfold initBrowser.
  destruct (connected_instance E h) as [b|];
    [exists []; simpl; now rewrite app_nil_r|].
  destruct (browserInitPromise h) as [pending|];
    [exists []; simpl; now rewrite app_nil_r|].
  destruct (launch_browser_events E h) as (added & Ht & Hf).
  destruct (launch_browser E h) as [r h1]. cbn [snd] in Ht.
  exists added. split; [|exact Hf].
  unfold bind, set_browserInitPromise, try_finally, call. cbn.
  destruct r; cbn; exact Ht.
Qed.

Ltac host_fields :=
  cbn [frame_host frame_page pipeline_world browserInstance browserInitPromise
       panel_html trace fst snd].

(** An export base is never empty, so the vendor prefix is always used. *)
Lemma vendor_of_file_url (v : string) :
  exists x rest,
    vendor_of (Some ("file://" ++ v)) = Some (String x rest)
    /\ String x rest = strip_trailing_slash ("file://" ++ v).
Proof.
  change ("file://" ++ v) with (String "f" ("ile://" ++ v)).
  unfold vendor_of. cbn [truthy].
  rewrite strip_trailing_slash_cons by discriminate.
  eexists; eexists; split; reflexivity.
Qed.

(** The export commands up to the save dialog, when there is a Markdown
    editor and rendering succeeds. *)
Lemma exportToHtml_run (E : HostEnv) (editor : option TextEditor) (ed : TextEditor)
    (extensionPath : string) (h : Host) (html : string) (logged : list string) :
  markdown_editor editor = Some ed ->
  marked_parse (libraries E) (marked_at_parse (libraries E) (pipeline_world h))
    (document_text ed) = (Normal html, logged) ->
  exists h1,
    trace h1 = (trace h ++ [ ShowSaveDialog (default_save_path E ed ".html")
                               "HTML Files" [ "html" ] ])%list
    /\ panel_html h1 = panel_html h
    /\ browserInstance h1 = browserInstance h
    /\ exportToHtml E editor extensionPath h
       = match window_showSaveDialog E (default_save_path E ed ".html") with
         | Some fsPath =>
             try_catch
               (write_file E fsPath (exported_document E extensionPath false html) ;;
                emit (ShowInformationMessage ("Successfully exported HTML to " ++ fsPath)))%js
               (fun error => emit (ShowErrorMessage ("Failed to export HTML: " ++ error)))
               h1
         | None => (Normal tt, h1)
         end.
Proof.
  intros Hed Hparse. unfold exportToHtml. rewrite Hed.
  unfold bind at 1. rewrite render_in_host, Hparse. cbn [fst snd].
  unfold bind at 1, show_save_dialog, bind at 1, emit at 1, ret at 1.
  exists (after_events
            (with_world h
               {| marked := marked_at_parse (libraries E) (pipeline_world h);
                  console := (console (pipeline_world h) ++ logged)%list |})
            [ ShowSaveDialog (default_save_path E ed ".html") "HTML Files" [ "html" ] ]).
  split; [reflexivity|]. split; [reflexivity|]. split; [reflexivity|].
  unfold default_save_path. destruct (window_showSaveDialog E _); reflexivity.
Qed.

Lemma exportToPdf_run (E : HostEnv) (editor : option TextEditor) (ed : TextEditor)
    (extensionPath : string) (h : Host) (html : string) (logged : list string) :
  markdown_editor editor = Some ed ->
  marked_parse (libraries E) (marked_at_parse (libraries E) (pipeline_world h))
    (document_text ed) = (Normal html, logged) ->
  exists h1,
    trace h1 = (trace h ++ [ ShowSaveDialog (default_save_path E ed ".pdf")
                               "PDF Files" [ "pdf" ] ])%list
    /\ panel_html h1 = panel_html h
    /\ browserInstance h1 = browserInstance h
    /\ exportToPdf E editor extensionPath h
       = match window_showSaveDialog E (default_save_path E ed ".pdf") with
         | Some fsPath =>
             generate_pdf E (exported_document E extensionPath true html) fsPath h1
         | None => (Normal tt, h1)
         end.
Proof.
  intros Hed Hparse. unfold exportToPdf. rewrite Hed.
  unfold bind at 1. rewrite render_in_host, Hparse. cbn [fst snd].
  unfold bind at 1, show_save_dialog, bind at 1, emit at 1, ret at 1.
  exists (after_events
            (with_world h
               {| marked := marked_at_parse (libraries E) (pipeline_world h);
                  console := (console (pipeline_world h) ++ logged)%list |})
            [ ShowSaveDialog (default_save_path E ed ".pdf") "PDF Files" [ "pdf" ] ]).
  split; [reflexivity|]. split; [reflexivity|]. split; [reflexivity|].
  unfold default_save_path. destruct (window_showSaveDialog E _); reflexivity.
Qed.

(** X15.  The HTML export writes, to the location chosen in the dialog, the
    document rendered for the screen with the [file://] locator of the
    bundled assets: its three asset locators are that locator, a trailing
    slash stripped, followed by the asset path, never the remote ones.  One
    information message is shown. *)
Theorem html_export_writes_local_assets
    (E : HostEnv) (editor : option TextEditor) (ed : TextEditor)
    (extensionPath : string) (h : Host) (html fsPath : string)
    (logged : list string) :
  markdown_editor editor = Some ed ->
  marked_parse (libraries E) (marked_at_parse (libraries E) (pipeline_world h))
    (document_text ed) = (Normal html, logged) ->
  window_showSaveDialog E (default_save_path E ed ".html") = Some fsPath ->
  fs_writeFileSync E fsPath (exported_document E extensionPath false html) = Normal tt ->
  (exists added,
     fst (exportToHtml E editor extensionPath h) = Normal tt
     /\ trace (snd (exportToHtml E editor extensionPath h)) = (trace h ++ added)%list
     /\ written added = [ (fsPath, exported_document E extensionPath false html) ]
     /\ notifications added = [ true ])
  /\ exists vendor,
       exported_document E extensionPath false html
       = document false (Some vendor)
           (sanitize (purify (libraries E)) sanitize_config html)
       /\ vendor = strip_trailing_slash
                     ("file://" ++ path_join E [ extensionPath; "assets"; "vendor" ])
       /\ highlight_css_href (Some vendor)
          = vendor ++ "/highlight/styles/github-dark.min.css"
       /\ katex_css_href (Some vendor) = vendor ++ "/katex/katex.min.css"
       /\ highlight_js_src (Some vendor) = vendor ++ "/highlight/highlight.min.js".
Proof.
  intros Hed Hparse Hdialog Hwrite. split.
  - destruct (exportToHtml_run E editor ed extensionPath h html logged Hed Hparse)
      as (h1 & Ht & _ & _ & Hrun).
    rewrite Hrun, Hdialog.
    unfold write_file, try_catch, bind, call, emit. host_fields.
    rewrite Hwrite. host_fields. rewrite Ht.
    eexists; split; [reflexivity|].
    split; [rewrite <- !app_assoc; reflexivity|].
    split; reflexivity.
  - destruct (vendor_of_file_url (path_join E [ extensionPath; "assets"; "vendor" ]))
      as (x & rest & Hv & Hs).
    exists (String x rest).
    unfold exported_document, assetBaseForExport. rewrite Hv.
    split; [reflexivity|]. split; [exact Hs|].
    repeat split.
Qed.

Lemma html_export_writes_local_assets_witness :
  markdown_editor (Some SampleHost.editor) = Some SampleHost.editor
  /\ window_showSaveDialog (SampleHost.env Sample.libraries EmptyString)
       (default_save_path (SampleHost.env Sample.libraries EmptyString)
          SampleHost.editor ".html")
     = Some "/home/me/notes.md/../notes.md.html"
  /\ exists added,
       fst (exportToHtml (SampleHost.env Sample.libraries EmptyString)
              (Some SampleHost.editor) "/ext" SampleHost.idle) = Normal tt
       /\ trace (snd (exportToHtml (SampleHost.env Sample.libraries EmptyString)
                        (Some SampleHost.editor) "/ext" SampleHost.idle))
          = (trace SampleHost.idle ++ added)%list
       /\ written added
          = [ ("/home/me/notes.md/../notes.md.html",
               exported_document (SampleHost.env Sample.libraries EmptyString)
                 "/ext" false ("<p># Title</p>" ++ nl)) ]
       /\ notifications added = [ true ].
Proof.
  split; [reflexivity|]. split; [reflexivity|].
  apply (html_export_writes_local_assets
           (SampleHost.env Sample.libraries EmptyString)
           (Some SampleHost.editor) SampleHost.editor "/ext" SampleHost.idle
           ("<p># Title</p>" ++ nl) "/home/me/notes.md/../notes.md.html" []).
  - reflexivity.
  - vm_compute; reflexivity.
  - reflexivity.
  - reflexivity.
Defined.

(** X16.  When writing the exported HTML fails, the command does not throw:
    it shows one error message carrying the message of the failure, and no
    information message. *)
Theorem html_export_reports_write_failure
    (E : HostEnv) (editor : option TextEditor) (ed : TextEditor)
    (extensionPath : string) (h : Host) (html fsPath m : string)
    (logged : list string) :
  markdown_editor editor = Some ed ->
  marked_parse (libraries E) (marked_at_parse (libraries E) (pipeline_world h))
    (document_text ed) = (Normal html, logged) ->
  window_showSaveDialog E (default_save_path E ed ".html") = Some fsPath ->
  fs_writeFileSync E fsPath (exported_document E extensionPath false html) = Abrupt m ->
  exists added,
    fst (exportToHtml E editor extensionPath h) = Normal tt
    /\ trace (snd (exportToHtml E editor extensionPath h)) = (trace h ++ added)%list
    /\ notifications added = [ false ]
    /\ In (ShowErrorMessage ("Failed to export HTML: " ++ m)) added.
Proof.
  intros Hed Hparse Hdialog Hwrite.
  destruct (exportToHtml_run E editor ed extensionPath h html logged Hed Hparse)
    as (h1 & Ht & _ & _ & Hrun).
  rewrite Hrun, Hdialog.
  unfold write_file, try_catch, bind, call, emit. host_fields.
  rewrite Hwrite. host_fields. rewrite Ht.
  eexists; split; [reflexivity|].
  split; [rewrite <- !app_assoc; reflexivity|].
  split; [reflexivity|].
  right; right; now left.
Qed.

Lemma html_export_reports_write_failure_witness :
  markdown_editor (Some SampleHost.readonly_editor) = Some SampleHost.readonly_editor
  /\ window_showSaveDialog (SampleHost.env Sample.libraries EmptyString)
       (default_save_path (SampleHost.env Sample.libraries EmptyString)
          SampleHost.readonly_editor ".html")
     = Some "/readonly/notes.md/../notes.md.html"
  /\ fs_writeFileSync
       (SampleHost.env Sample.libraries EmptyString)
       "/readonly/notes.md/../notes.md.html"
       (exported_document (SampleHost.env Sample.libraries EmptyString)
          "/ext" false ("<p># Title</p>" ++ nl))
     = Abrupt "EACCES: permission denied"
  /\ exists added,
       fst (exportToHtml (SampleHost.env Sample.libraries EmptyString)
              (Some SampleHost.readonly_editor) "/ext" SampleHost.idle) = Normal tt
       /\ trace (snd (exportToHtml (SampleHost.env Sample.libraries EmptyString)
                        (Some SampleHost.readonly_editor) "/ext" SampleHost.idle))
          = (trace SampleHost.idle ++ added)%list
       /\ notifications added = [ false ]
       /\ In (ShowErrorMessage ("Failed to export HTML: "
                                  ++ "EACCES: permission denied")) added.
Proof.
  split; [reflexivity|]. split; [reflexivity|]. split; [reflexivity|].
  apply (html_export_reports_write_failure
           (SampleHost.env Sample.libraries EmptyString)
           (Some SampleHost.readonly_editor) SampleHost.readonly_editor "/ext"
           SampleHost.idle ("<p># Title</p>" ++ nl)
           "/readonly/notes.md/../notes.md.html" "EACCES: permission denied" []).
  - reflexivity.
  - vm_compute; reflexivity.
  - reflexivity.
  - reflexivity.
Defined.

Ltac unfold_pdf :=
  unfold generate_pdf, with_progress, pdf_task, close_open_page, close_page,
    write_file, try_finally, try_catch, bind, in_host, set_page, ret, call,
    throw, emit;
  host_fields.

Ltac case_oracle E :=
  match goal with
  | |- context [browser_newPage E ?b] =>
      destruct (browser_newPage E b) eqn:?
  | |- context [page_setContent E ?p ?s] =>
      destruct (page_setContent E p s) as [[]|] eqn:?
  | |- context [page_waitForMermaidReady E ?p] =>
      destruct (page_waitForMermaidReady E p) as [[]|] eqn:?
  | |- context [page_waitForNetworkIdle E ?p] =>
      destruct (page_waitForNetworkIdle E p) as [[]|] eqn:?
  | |- context [page_pdf E ?p] =>
      destruct (page_pdf E p) eqn:?
  | |- context [fs_writeFileSync E ?f ?c] =>
      destruct (fs_writeFileSync E f c) as [[]|] eqn:?
  | |- context [page_isClosed E ?p] =>
      destruct (page_isClosed E p) eqn:?
  | |- context [page_close E ?p] =>
      destruct (page_close E p) as [[]|] eqn:?
  end; host_fields.

(** The PDF generation on every outcome of every call it makes: it never
    throws and never closes the browser; what it shows, writes and closes is
    decided by the first call that fails. *)
Lemma generate_pdf_spec (E : HostEnv) (htmlContent fsPath : string) (h : Host) :
  exists (h' : Host) (added : list HostEvent),
    generate_pdf E htmlContent fsPath h = (Normal tt, h')
    /\ trace h' = (trace h ++ added)%list
    /\ browser_closes added = 0
    /\ match fst (getBrowserInstance E
                    (after_events h [ WithProgress "Generating PDF..." ])) with
       | Abrupt _ =>
           notifications added = [ false ] /\ written added = []
           /\ page_closes added = 0
       | Normal b =>
           match browser_newPage E b with
           | Abrupt _ =>
               notifications added = [ false ] /\ written added = []
               /\ page_closes added = 0
           | Normal p =>
               page_closes added = (if page_isClosed E p then 0 else 1)
               /\ match page_setContent E p htmlContent with
                  | Abrupt _ => notifications added = [ false ] /\ written added = []
                  | Normal _ =>
                      match page_pdf E p with
                      | Abrupt _ =>
                          notifications added = [ false ] /\ written added = []
                      | Normal buf =>
                          written added = [ (fsPath, buf) ]
                          /\ notifications added
                             = [ match fs_writeFileSync E fsPath buf with
                                 | Normal _ => true
                                 | Abrupt _ => false
                                 end ]
                      end
                  end
           end
       end.
Proof.
  destruct (getBrowserInstance_events E
              (after_events h [ WithProgress "Generating PDF..." ]))
    as (added0 & Ht0 & Hf0).
  destruct (launch_events_are_silent _ Hf0) as (Hn0 & Hw0 & Hp0 & Hb0).
  unfold_pdf.
  change {| pipeline_world := pipeline_world h;
            browserInstance := browserInstance h;
            browserInitPromise := browserInitPromise h;
            panel_html := panel_html h;
            trace := (trace h ++ [ WithProgress "Generating PDF..." ])%list |}
    with (after_events h [ WithProgress "Generating PDF..." ]).
  destruct (getBrowserInstance E (after_events h [ WithProgress "Generating PDF..." ]))
    as [[b | e] h1]; cbn [snd] in Ht0; host_fields.
  - repeat case_oracle E.
    all: eexists; eexists; (split; [reflexivity|]); host_fields; rewrite Ht0.
    all: cbn [after_events trace]; rewrite <- ?app_assoc.
    all: (split; [reflexivity|]).
    all: rewrite ?browser_closes_app, ?page_closes_app, ?notifications_app,
           ?written_app, ?Hn0, ?Hw0, ?Hp0, ?Hb0.
    all: cbn; repeat split.
  - eexists; eexists; (split; [reflexivity|]); host_fields; rewrite Ht0.
    cbn [after_events trace]. rewrite <- ?app_assoc. split; [reflexivity|].
    rewrite ?browser_closes_app, ?page_closes_app, ?notifications_app,
      ?written_app, ?Hn0, ?Hw0, ?Hp0, ?Hb0.
    cbn. repeat split.
Qed.

(** X17.  Once a page has been opened for the PDF, it is closed exactly once
    before the command ends, whatever happens to the content, the waits, the
    printing and the writing (unless the page reports to be closed
    already). *)
Theorem open_page_is_closed_exactly_once
    (E : HostEnv) (htmlContent fsPath : string) (h : Host) (b : Browser)
    (p : PuppeteerPage) :
  fst (getBrowserInstance E (after_events h [ WithProgress "Generating PDF..." ]))
  = Normal b ->
  browser_newPage E b = Normal p ->
  page_isClosed E p = false ->
  exists (h' : Host) (added : list HostEvent),
    generate_pdf E htmlContent fsPath h = (Normal tt, h')
    /\ trace h' = (trace h ++ added)%list
    /\ page_closes added = 1.
Proof.
  intros Hb Hp Hc.
  destruct (generate_pdf_spec E htmlContent fsPath h)
    as (h' & added & Hrun & Ht & _ & Hspec).
  rewrite Hb, Hp, Hc in Hspec. destruct Hspec as [Hcl _].
  exists h', added. repeat split; assumption.
Qed.

Lemma open_page_is_closed_exactly_once_witness :
  fst (getBrowserInstance (SampleHost.env Sample.libraries EmptyString)
         (after_events SampleHost.idle [ WithProgress "Generating PDF..." ]))
  = Normal SampleHost.chromium
  /\ browser_newPage (SampleHost.env Sample.libraries EmptyString) SampleHost.chromium
     = Normal SampleHost.tab
  /\ page_isClosed (SampleHost.env Sample.libraries EmptyString) SampleHost.tab = false
  /\ exists (h' : Host) (added : list HostEvent),
       generate_pdf (SampleHost.env Sample.libraries EmptyString)
         "<p>x</p>" "/readonly/x.pdf" SampleHost.idle = (Normal tt, h')
       /\ trace h' = (trace SampleHost.idle ++ added)%list
       /\ page_closes added = 1.
Proof.
  split; [vm_compute; reflexivity|]. split; [reflexivity|]. split; [reflexivity|].
  apply (open_page_is_closed_exactly_once
           (SampleHost.env Sample.libraries EmptyString) "<p>x</p>" "/readonly/x.pdf"
           SampleHost.idle SampleHost.chromium SampleHost.tab).
  - vm_compute; reflexivity.
  - reflexivity.
  - reflexivity.
Defined.

(** X18.  The two waits do not decide the export: when the browser, the
    page, the content, the printing and the writing succeed, the PDF is
    written and one information message is shown, whether or not the wait
    for the completion flag and the wait for network idleness time out. *)
Theorem pdf_export_survives_wait_timeouts
    (E : HostEnv) (htmlContent fsPath : string) (h : Host) (b : Browser)
    (p : PuppeteerPage) (buf : string) :
  fst (getBrowserInstance E (after_events h [ WithProgress "Generating PDF..." ]))
  = Normal b ->
  browser_newPage E b = Normal p ->
  page_setContent E p htmlContent = Normal tt ->
  page_pdf E p = Normal buf ->
  fs_writeFileSync E fsPath buf = Normal tt ->
  exists (h' : Host) (added : list HostEvent),
    generate_pdf E htmlContent fsPath h = (Normal tt, h')
    /\ trace h' = (trace h ++ added)%list
    /\ written added = [ (fsPath, buf) ]
    /\ notifications added = [ true ].
Proof.
  intros Hb Hp Hs Hpdf Hw.
  destruct (generate_pdf_spec E htmlContent fsPath h)
    as (h' & added & Hrun & Ht & _ & Hspec).
  rewrite Hb, Hp, Hs, Hpdf, Hw in Hspec. destruct Hspec as (_ & Hwr & Hn).
  exists h', added. repeat split; assumption.
Qed.

Lemma pdf_export_survives_wait_timeouts_witness :
  page_waitForMermaidReady (SampleHost.env Sample.libraries EmptyString) SampleHost.tab
  = Abrupt "Waiting failed: 10000ms exceeded"
  /\ fst (getBrowserInstance (SampleHost.env Sample.libraries EmptyString)
            (after_events SampleHost.idle [ WithProgress "Generating PDF..." ]))
     = Normal SampleHost.chromium
  /\ exists (h' : Host) (added : list HostEvent),
       generate_pdf (SampleHost.env Sample.libraries EmptyString)
         "<p>x</p>" "/home/me/x.pdf" SampleHost.idle = (Normal tt, h')
       /\ trace h' = (trace SampleHost.idle ++ added)%list
       /\ written added = [ ("/home/me/x.pdf", "%PDF-1.4") ]
       /\ notifications added = [ true ].
Proof.
  split; [reflexivity|]. split; [vm_compute; reflexivity|].
  apply (pdf_export_survives_wait_timeouts
           (SampleHost.env Sample.libraries EmptyString) "<p>x</p>" "/home/me/x.pdf"
           SampleHost.idle SampleHost.chromium SampleHost.tab "%PDF-1.4").
  - vm_compute; reflexivity.
  - reflexivity.
  - reflexivity.
  - reflexivity.
  - reflexivity.
Defined.

(** X19.  Once the document is rendered and a location chosen, the PDF
    command never throws and never closes the browser, and it shows exactly
    one notification: the information message only when a PDF was written,
    the error message otherwise. *)
Theorem pdf_export_notifies_exactly_once
    (E : HostEnv) (editor : option TextEditor) (ed : TextEditor)
    (extensionPath : string) (h : Host) (html fsPath : string)
    (logged : list string) :
  markdown_editor editor = Some ed ->
  marked_parse (libraries E) (marked_at_parse (libraries E) (pipeline_world h))
    (document_text ed) = (Normal html, logged) ->
  window_showSaveDialog E (default_save_path E ed ".pdf") = Some fsPath ->
  exists added,
    fst (exportToPdf E editor extensionPath h) = Normal tt
    /\ trace (snd (exportToPdf E editor extensionPath h)) = (trace h ++ added)%list
    /\ browser_closes added = 0
    /\ ((notifications added = [ true ]
         /\ exists buf, written added = [ (fsPath, buf) ])
        \/ (notifications added = [ false ]
            /\ (written added = []
                \/ exists buf, written added = [ (fsPath, buf) ]
                               /\ fs_writeFileSync E fsPath buf <> Normal tt))).
Proof.
  intros Hed Hparse Hdialog.
  destruct (exportToPdf_run E editor ed extensionPath h html logged Hed Hparse)
    as (h1 & Ht1 & _ & _ & Hrun).
  rewrite Hrun, Hdialog.
  destruct (generate_pdf_spec E (exported_document E extensionPath true html) fsPath h1)
    as (h' & added & Hgen & Ht & Hbc & Hspec).
  rewrite Hgen. cbn [fst snd]. rewrite Ht, Ht1, <- app_assoc.
  eexists; split; [reflexivity|]. split; [reflexivity|].
  rewrite browser_closes_app, notifications_app, written_app, Hbc. cbn [app].
  split; [reflexivity|].
  change (notifications [ ShowSaveDialog (default_save_path E ed ".pdf")
                            "PDF Files" [ "pdf" ] ]) with (@nil bool).
  change (written [ ShowSaveDialog (default_save_path E ed ".pdf")
                      "PDF Files" [ "pdf" ] ]) with (@nil (string * string)).
  cbn [app].
  destruct (fst (getBrowserInstance E _)) as [b | e];
    [|right; destruct Hspec as (Hn & Hw & _); split; [exact Hn | now left]].
  destruct (browser_newPage E b) as [p | e];
    [|right; destruct Hspec as (Hn & Hw & _); split; [exact Hn | now left]].
  destruct Hspec as [_ Hspec].
  destruct (page_setContent E p _) as [[] | e];
    [|right; destruct Hspec as (Hn & Hw); split; [exact Hn | now left]].
  destruct (page_pdf E p) as [buf | e];
    [|right; destruct Hspec as (Hn & Hw); split; [exact Hn | now left]].
  destruct Hspec as (Hw & Hn).
  destruct (fs_writeFileSync E fsPath buf) as [[] | e] eqn:Hwrite.
  - left. split; [exact Hn | now exists buf].
  - right. split; [exact Hn|]. right. exists buf.
    split; [exact Hw | rewrite Hwrite; discriminate].
Qed.

Lemma pdf_export_notifies_exactly_once_witness :
  markdown_editor (Some SampleHost.readonly_editor) = Some SampleHost.readonly_editor
  /\ window_showSaveDialog (SampleHost.env Sample.libraries EmptyString)
       (default_save_path (SampleHost.env Sample.libraries EmptyString)
          SampleHost.readonly_editor ".pdf")
     = Some "/readonly/notes.md/../notes.md.pdf"
  /\ exists added,
       fst (exportToPdf (SampleHost.env Sample.libraries EmptyString)
              (Some SampleHost.readonly_editor) "/ext" SampleHost.idle) = Normal tt
       /\ trace (snd (exportToPdf (SampleHost.env Sample.libraries EmptyString)
                        (Some SampleHost.readonly_editor) "/ext" SampleHost.idle))
          = (trace SampleHost.idle ++ added)%list
       /\ browser_closes added = 0.
Proof.
  split; [reflexivity|]. split; [reflexivity|].
  destruct (pdf_export_notifies_exactly_once
              (SampleHost.env Sample.libraries EmptyString)
              (Some SampleHost.readonly_editor) SampleHost.readonly_editor "/ext"
              SampleHost.idle ("<p># Title</p>" ++ nl)
              "/readonly/notes.md/../notes.md.pdf" [])
    as (added & Hr & Ht & Hb & _).
  - reflexivity.
  - vm_compute; reflexivity.
  - reflexivity.
  - exists added. repeat split; assumption.
Defined.

(** X20.  When no browser can be acquired, the PDF command reports the
    failure with its message, opens no page and writes nothing. *)
Theorem pdf_export_without_browser
    (E : HostEnv) (htmlContent fsPath : string) (h h1 : Host) (e : string) :
  getBrowserInstance E (after_events h [ WithProgress "Generating PDF..." ])
  = (Abrupt e, h1) ->
  generate_pdf E htmlContent fsPath h
  = (Normal tt,
     after_events h1
       [ ShowErrorMessage ("Failed to export PDF: " ++ e);
         ConsoleError [ "PDF Export Error:"; e ];
         ConsoleError [ "Error in PDF export:"; e ] ]).
Proof.
  intros Hb. unfold_pdf.
  change {| pipeline_world := pipeline_world h;
            browserInstance := browserInstance h;
            browserInitPromise := browserInitPromise h;
            panel_html := panel_html h;
            trace := (trace h ++ [ WithProgress "Generating PDF..." ])%list |}
    with (after_events h [ WithProgress "Generating PDF..." ]).
  rewrite Hb. host_fields.
  unfold after_events. now rewrite <- !app_assoc.
Qed.

Lemma pdf_export_without_browser_witness :
  fst (getBrowserInstance SampleHost.barren
         (after_events SampleHost.idle [ WithProgress "Generating PDF..." ]))
  = Abrupt "Failed to launch browser.  Last error: spawn failed. Please ensure Chrome or Chromium is installed. "
  /\ notifications
       (trace (snd (generate_pdf SampleHost.barren "<p>x</p>" "/home/me/x.pdf"
                      SampleHost.idle)))
     = [ false ]
  /\ written
       (trace (snd (generate_pdf SampleHost.barren "<p>x</p>" "/home/me/x.pdf"
                      SampleHost.idle)))
     = [].
Proof.
  split; [vm_compute; reflexivity|].
  rewrite (pdf_export_without_browser SampleHost.barren "<p>x</p>" "/home/me/x.pdf"
             SampleHost.idle
             (snd (getBrowserInstance SampleHost.barren
                     (after_events SampleHost.idle [ WithProgress "Generating PDF..." ])))
             "Failed to launch browser.  Last error: spawn failed. Please ensure Chrome or Chromium is installed. ").
  - split; vm_compute; reflexivity.
  - vm_compute; reflexivity.
Defined.

(** X21.  Every refresh of the preview registers the math extension once
    more on the shared [marked] object, whether rendering succeeds or
    throws, and whatever the webview says about the assets. *)
Theorem preview_refresh_grows_registry
    (E : HostEnv) (md extensionPath : string) (h : Host) :
  extensions (marked (pipeline_world (snd (updateContent E md extensionPath h))))
  = (extensions (marked (pipeline_world h)) ++ [ markedKatex ])%list.
Proof.
  rewrite updateContent_run. unfold bind.
  rewrite render_in_host.
  destruct (fst (marked_parse (libraries E) _ md)); reflexivity.
Qed.
